(** * Instagram reels scheduler: a shallow embedding of
      [scripts/ig_reels_scheduler.py] and its checked properties.

    The script is a single Python module.  Its pure helpers ([parse_bool],
    the schedule parsing) are Rocq functions; its effectful parts (HTTP
    requests, the wall clock, [time.sleep], [print], the manifest file) run
    in a small state-and-exception monad over an explicit [World].

    Conventions of the model:
    - a Python [str] is a Rocq [string]; each character is read as the
      code point of the same number (U+0000 .. U+00FF);
    - a manifest row (a [dict] produced by [csv.DictReader]) is a
      [gmap string string]: every cell is text;
    - the JSON body of a response is an object whose fields are text, a
      [gmap string string] as well;
    - the CSV encoding of the manifest is the store's business: the store
      holds a list of rows, reading returns it and writing replaces it;
    - [time.time()] is read in whole seconds. *)

From Stdlib Require Import ZArith Ascii String List Lia Bool.
From stdpp Require Import base option list gmap strings.

Local Open Scope string_scope.
Local Open Scope Z_scope.

(* ===================================================================== *)
(** ** Python strings *)
(* ===================================================================== *)

Module PyStr.

Definition code (c : ascii) : Z := Z.of_N (N_of_ascii c).

Definition in_range (lo hi : ascii) (c : ascii) : bool :=
  (code lo <=? code c) && (code c <=? code hi).

(** [str.isspace] on U+0000 .. U+00FF: TAB, LF, VT, FF, CR, the four
    separators FS GS RS US, SPACE, NEL and NO-BREAK SPACE. *)
Definition isspace (c : ascii) : bool :=
  let n := code c in
  ((9 <=? n) && (n <=? 13)) || ((28 <=? n) && (n <=? 32))
  || (n =? 133) || (n =? 160).

(** Decimal digits (category Nd) below U+0100 are the ASCII ones. *)
Definition isdigit (c : ascii) : bool := in_range "0" "9" c.

Definition digit_val (c : ascii) : Z := code c - 48.

Fixpoint lstrip (s : string) : string :=
  match s with
  | String c t => if isspace c then lstrip t else s
  | EmptyString => EmptyString
  end.

(** [rstrip] keeps a character when something that is not white space
    follows it, or when it is not white space itself. *)
Fixpoint rstrip (s : string) : string :=
  match s with
  | String c t =>
      match rstrip t with
      | EmptyString => if isspace c then EmptyString else String c EmptyString
      | t' => String c t'
      end
  | EmptyString => EmptyString
  end.

Definition strip (s : string) : string := rstrip (lstrip s).

(** [str.lower] below U+0100: A-Z and the Latin-1 capitals (all of
    U+00C0 .. U+00DE but the multiplication sign) move up by 32. *)
Definition lower_char (c : ascii) : ascii :=
  let n := code c in
  if ((65 <=? n) && (n <=? 90))
     || ((192 <=? n) && (n <=? 222) && negb (n =? 215))
  then ascii_of_N (Z.to_N (n + 32)) else c.

Fixpoint lower (s : string) : string :=
  match s with
  | String c t => String (lower_char c) (lower t)
  | EmptyString => EmptyString
  end.

Fixpoint endswith (s suffix : string) : bool :=
  bool_decide (s = suffix)
  || match s with
     | String _ t => endswith t suffix
     | EmptyString => false
     end.

(** Truthiness of a [str]: non-empty. *)
Definition truthy (s : string) : bool :=
  match s with EmptyString => false | _ => true end.

End PyStr.

(** [parse_bool]: [str(s).strip().lower() in {"1", "true", "yes", "y"}]. *)
Definition parse_bool (s : string) : bool :=
  bool_decide (PyStr.lower (PyStr.strip s) ∈ ["1"; "true"; "yes"; "y"]).

(* ===================================================================== *)
(** ** Datetimes *)
(* ===================================================================== *)

(** The fields of a [datetime.datetime].  Every datetime of the script
    carries the same [tzinfo] object [IST], so Python compares two of them
    field by field, without converting to UTC. *)
Record datetime : Type := mkDatetime {
  year : Z; month : Z; day : Z;
  hour : Z; minute : Z; second : Z; microsecond : Z
}.

Definition lex (c1 c2 : comparison) : comparison :=
  match c1 with Eq => c2 | _ => c1 end.

Definition dt_compare (a b : datetime) : comparison :=
  lex (year a ?= year b)
 (lex (month a ?= month b)
 (lex (day a ?= day b)
 (lex (hour a ?= hour b)
 (lex (minute a ?= minute b)
 (lex (second a ?= second b)
      (microsecond a ?= microsecond b)))))).

(** [a < b] on datetimes. *)
Definition dt_lt (a b : datetime) : bool :=
  match dt_compare a b with Lt => true | _ => false end.

(** [dt.replace(second=0, microsecond=0)]. *)
Definition replace_second0 (dt : datetime) : datetime :=
  {| year := year dt; month := month dt; day := day dt;
     hour := hour dt; minute := minute dt; second := 0; microsecond := 0 |}.

Definition is_leap (y : Z) : bool :=
  (y mod 4 =? 0) && (negb (y mod 100 =? 0) || (y mod 400 =? 0)).

Definition days_in_month (y m : Z) : Z :=
  if m =? 2 then (if is_leap y then 29 else 28)
  else if (m =? 4) || (m =? 6) || (m =? 9) || (m =? 11) then 30
  else 31.

(** The checks of the [date] constructor ([MINYEAR] is 1, [MAXYEAR] 9999). *)
Definition valid_date (y m d : Z) : bool :=
  (1 <=? y) && (y <=? 9999) && (1 <=? m) && (m <=? 12)
  && (1 <=? d) && (d <=? days_in_month y m).

(* ===================================================================== *)
(** ** [datetime.strptime(s, "%Y-%m-%d %H:%M")] *)
(* ===================================================================== *)

(** CPython turns the format into the regular expression
<<
  (?P<Y>\d\d\d\d)-(?P<m>1[0-2]|0[1-9]|[1-9])-
  (?P<d>3[0-1]|[1-2]\d|0[1-9]|[1-9]| [1-9])\s+
  (?P<H>2[0-3]|[0-1]\d|\d):(?P<M>[0-5]\d|\d)
>>
    matches it at the start of the text, and refuses a match that does not
    reach the end of the text.  The matcher below is that expression in
    continuation-passing style: every alternative is tried in the order it
    is written, and a continuation that fails makes the matcher backtrack
    to the next alternative. *)
Module Strptime.

Import PyStr.

Section Matcher.
Context {R : Type}.

Definition orelse (a b : option R) : option R :=
  match a with Some _ => a | None => b end.

(** One character of the class [p]. *)
Definition chr (p : ascii → bool) (k : ascii → string → option R)
    (s : string) : option R :=
  match s with
  | String c t => if p c then k c t else None
  | EmptyString => None
  end.

Definition lit (c : ascii) (k : string → option R) : string → option R :=
  chr (λ x, bool_decide (x = c)) (λ _, k).

(** [\s*], greedy. *)
Fixpoint spaces_star (k : string → option R) (s : string) : option R :=
  match s with
  | String c t =>
      if isspace c then orelse (spaces_star k t) (k s) else k s
  | EmptyString => k s
  end.

(** [\s+]. *)
Definition spaces_plus (k : string → option R) : string → option R :=
  chr isspace (λ _, spaces_star k).

(** [\d\d\d\d] *)
Definition re_Y (k : Z → string → option R) : string → option R :=
  chr isdigit (λ a, chr isdigit (λ b, chr isdigit (λ c, chr isdigit (λ d,
    k (1000 * digit_val a + 100 * digit_val b
       + 10 * digit_val c + digit_val d))))).

(** [1[0-2]|0[1-9]|[1-9]] *)
Definition re_m (k : Z → string → option R) (s : string) : option R :=
  orelse (lit "1" (chr (in_range "0" "2") (λ c, k (10 + digit_val c))) s)
 (orelse (lit "0" (chr (in_range "1" "9") (λ c, k (digit_val c))) s)
         (chr (in_range "1" "9") (λ c, k (digit_val c)) s)).

(** [3[0-1]|[1-2]\d|0[1-9]|[1-9]| [1-9]] *)
Definition re_d (k : Z → string → option R) (s : string) : option R :=
  orelse (lit "3" (chr (in_range "0" "1") (λ c, k (30 + digit_val c))) s)
 (orelse (chr (in_range "1" "2") (λ a, chr isdigit (λ c,
            k (10 * digit_val a + digit_val c))) s)
 (orelse (lit "0" (chr (in_range "1" "9") (λ c, k (digit_val c))) s)
 (orelse (chr (in_range "1" "9") (λ c, k (digit_val c)) s)
         (lit " " (chr (in_range "1" "9") (λ c, k (digit_val c))) s)))).

(** [2[0-3]|[0-1]\d|\d] *)
Definition re_H (k : Z → string → option R) (s : string) : option R :=
  orelse (lit "2" (chr (in_range "0" "3") (λ c, k (20 + digit_val c))) s)
 (orelse (chr (in_range "0" "1") (λ a, chr isdigit (λ c,
            k (10 * digit_val a + digit_val c))) s)
         (chr isdigit (λ c, k (digit_val c)) s)).

(** [[0-5]\d|\d] *)
Definition re_M (k : Z → string → option R) (s : string) : option R :=
  orelse (chr (in_range "0" "5") (λ a, chr isdigit (λ c,
            k (10 * digit_val a + digit_val c))) s)
         (chr isdigit (λ c, k (digit_val c)) s).
End Matcher.

(** The groups of the first match and the text left after it. *)
Definition match_format (s : string) : option (Z * Z * Z * Z * Z * string) :=
  re_Y (λ y, lit "-" (re_m (λ m, lit "-" (re_d (λ d, spaces_plus
    (re_H (λ h, lit ":" (re_M (λ mi rest,
       Some (y, m, d, h, mi, rest)))))))))) s.

(** [None] stands for the [ValueError] of a text that does not match, of
    unconverted data after the match, and of a date that does not exist. *)
Definition strptime (s : string) : option datetime :=
  match match_format s with
  | Some (y, m, d, h, mi, EmptyString) =>
      if valid_date y m d
      then Some (mkDatetime y m d h mi 0 0)
      else None
  | _ => None
  end.

End Strptime.

(* ===================================================================== *)
(** ** The world the script runs in *)
(* ===================================================================== *)

(** A manifest row: the [dict] of one CSV line. *)
Abbreviation row := (gmap string string).

(** [row.get(key, default)] *)
Definition row_get (r : row) (key dflt : string) : string :=
  default dflt (r !! key).

Inductive exn : Type :=
| RequestException            (* [requests]: transport failure, a status
                                 refused by [raise_for_status], a body that
                                 is not JSON *)
| KeyError (key : string)
| RuntimeError (msg : string)
| TimeoutError (msg : string)
| ValueError (msg : string)
| OSError (msg : string).

(** What the remote side answers to one request: how long the request
    took, and the JSON object of a successful response ([None]: the request
    raised). *)
Record reply : Type := mkReply {
  latency : nat;
  body : option (gmap string string)
}.

Inductive event : Type :=
| EvCreate (payload : gmap string string)   (* POST {BASE}/{IG_USER_ID}/media *)
| EvStatus (container_id : string)          (* GET  {BASE}/{container_id} *)
| EvPublish (container_id : string)         (* POST {BASE}/{IG_USER_ID}/media_publish *)
| EvSleep (seconds : Z)
| EvPrint (line : string)
| EvWrite (rows : list row).

Record World : Type := mkWorld {
  clock : Z;                        (* what [time.time()] returns *)
  requests_sent : nat;              (* HTTP requests sent so far *)
  trace : list event;               (* everything done so far, oldest first *)
  manifest : option (list row)      (* the file at [MANIFEST]; [None]: it
                                       cannot be read *)
}.

(** The outcome of a computation: a value, an uncaught exception, or a loop
    that was still running when the fuel ran out. *)
Inductive result (A : Type) : Type :=
| Ret (a : A)
| Raise (e : exn)
| OutOfFuel.
Arguments Ret {A} a.
Arguments Raise {A} e.
Arguments OutOfFuel {A}.

Definition M (A : Type) : Type := World → result A * World.

Definition ret {A} (a : A) : M A := λ w, (Ret a, w).
Definition raise {A} (e : exn) : M A := λ w, (Raise e, w).
Definition out_of_fuel {A} : M A := λ w, (OutOfFuel, w).

Definition bind {A B} (m : M A) (k : A → M B) : M B :=
  λ w, match m w with
       | (Ret a, w') => k a w'
       | (Raise e, w') => (Raise e, w')
       | (OutOfFuel, w') => (OutOfFuel, w')
       end.

Declare Scope py_scope.
Delimit Scope py_scope with py.
Notation "'let*' x ':=' m 'in' k" := (bind m (λ x, k))
  (at level 10, x pattern, m at level 100, k at level 200) : py_scope.
Notation "m ';;;' k" := (bind m (λ _, k))
  (at level 100, k at level 200, right associativity) : py_scope.
Local Open Scope py_scope.

(** The world once [e] is appended to what has been done. *)
Definition logged (e : event) (w : World) : World :=
  mkWorld (clock w) (requests_sent w) (trace w ++ [e]) (manifest w).

(** The world after a sleep of [secs] seconds. *)
Definition slept (secs : Z) (w : World) : World :=
  mkWorld (clock w + secs) (requests_sent w)
          (trace w ++ [EvSleep secs]) (manifest w).

Definition emit (e : event) : M unit := λ w, (Ret tt, logged e w).

Definition print (line : string) : M unit := emit (EvPrint line).

(** [time.time()] *)
Definition time_time : M Z := λ w, (Ret (clock w), w).

(** [time.sleep(secs)]: a negative length is refused. *)
Definition time_sleep (secs : Z) : M unit :=
  if secs <? 0 then raise (ValueError "sleep length must be non-negative")
  else λ w, (Ret tt, slept secs w).

(** The events of [w'] that came after those of [w]. *)
Definition events_since (w w' : World) : list event :=
  drop (length (trace w)) (trace w').

Definition is_status (e : event) : bool :=
  match e with EvStatus _ => true | _ => false end.
Definition is_publish (e : event) : bool :=
  match e with EvPublish _ => true | _ => false end.
Definition is_create (e : event) : bool :=
  match e with EvCreate _ => true | _ => false end.
Definition is_write (e : event) : bool :=
  match e with EvWrite _ => true | _ => false end.
Definition is_remote (e : event) : bool :=
  is_create e || is_status e || is_publish e.

Definition count (p : event → bool) (l : list event) : nat :=
  length (filter (λ e, p e = true) l).

(** [str(x)] of a value that is a string or [None]. *)
Definition py_str (o : option string) : string := default "None" o.

Section Scheduler.

(** The module-level configuration, read from the environment. *)
Variable ACCESS_TOKEN : string.
Variable POLL_INTERVAL : Z.
Variable POLL_TIMEOUT : Z.

(** The attribute [IST.localize]: [zoneinfo.ZoneInfo] has none ([None],
    the lookup raises [AttributeError]); a pytz time zone has one, which
    may itself raise. *)
Variable IST_localize : option (datetime → option datetime).

(** The remote side: the reply to the n-th request of the process.  The
    script is deterministic, so ranging over every such function ranges
    over every behaviour of the platform. *)
Variable server : nat → reply.

(** The world once [request] has been sent and answered: the clock has
    moved by the time the answer took. *)
Definition answered (request : event) (w : World) : World :=
  mkWorld (clock w + Z.of_nat (latency (server (requests_sent w))))
          (S (requests_sent w)) (trace w ++ [request]) (manifest w).

(** [requests.get] / [requests.post], [raise_for_status], [.json()]. *)
Definition http (request : event) : M (gmap string string) :=
  λ w, match body (server (requests_sent w)) with
       | Some data => (Ret data, answered request w)
       | None => (Raise RequestException, answered request w)
       end.

(** lines 24-32: the form data of the create request. *)
Definition create_payload (video_url caption : string)
    (share_to_feed : bool) (cover_url : option string)
    : gmap string string :=
  let payload : gmap string string :=
    <["access_token" := ACCESS_TOKEN]>
    (<["share_to_feed" := if share_to_feed then "true" else "false"]>
    (<["caption" := caption]>
    (<["video_url" := video_url]>
    (<["media_type" := "REELS"]> ∅)))) in
  match cover_url with
  | Some c => if PyStr.truthy c then <["cover_url" := c]> payload
              else payload
  | None => payload
  end.

(** lines 21-37 *)
Definition create_reel_container (video_url caption : string)
    (share_to_feed : bool) (cover_url : option string) : M string :=
  let payload :=
    create_payload video_url caption share_to_feed cover_url in
  let* data := http (EvCreate payload) in
  match data !! "id" with
  | Some id => ret id
  | None => raise (KeyError "id")
  end.

(** lines 45-55: the [while True] loop, [fuel] iterations at most. *)
Fixpoint poll_loop (fuel : nat) (container_id : string) (start : Z)
    : M bool :=
  match fuel with
  | O => out_of_fuel
  | S fuel' =>
      let* data := http (EvStatus container_id) in
      let status := data !! "status_code" in
      if bool_decide (status = Some "FINISHED") then ret true
      else if bool_decide (status ∈ [Some "ERROR"; Some "EXPIRED"]) then
        raise (RuntimeError ("Container " ++ container_id
                             ++ " failed with status: " ++ py_str status))
      else
        let* t := time_time in
        if POLL_TIMEOUT <? t - start then
          raise (TimeoutError ("Container " ++ container_id
                               ++ " not ready within timeout."))
        else
          time_sleep POLL_INTERVAL ;;;
          poll_loop fuel' container_id start
  end.

(** lines 40-55 *)
Definition poll_container_ready (fuel : nat) (container_id : string)
    : M bool :=
  let* start := time_time in
  poll_loop fuel container_id start.

(** lines 58-63 *)
Definition publish_container (container_id : string) : M string :=
  let* data := http (EvPublish container_id) in
  ret (default "" (data !! "id")).

(** line 90, inside the [try]: [None] stands for any exception, all of
    them caught by [except Exception]. *)
Definition parse_schedule (sched_str : string) : option datetime :=
  if PyStr.truthy sched_str && PyStr.endswith sched_str ":00Z-legacy" then
    match IST_localize with
    | None => None
    | Some localize =>
        match Strptime.strptime sched_str with
        | Some naive => localize naive
        | None => None
        end
    end
  else Strptime.strptime sched_str.

(** The decision of lines 82-96 on one row: not due, with the warning
    line printed on the way if any, or due. *)
Inductive gate : Type :=
| NotDue (warning : option string)
| IsDue.

Definition due_gate (now_ist : datetime) (r : row) : gate :=
  if parse_bool (row_get r "posted" "false") then NotDue None
  else
    let sched_str := PyStr.strip (row_get r "scheduled_time_ist" "") in
    if negb (PyStr.truthy sched_str) then NotDue None
    else
      match parse_schedule sched_str with
      | None => NotDue (Some ("[WARN] Bad time format: " ++ sched_str))
      | Some sched_dt =>
          if dt_lt now_ist sched_dt then NotDue None else IsDue
      end.

(** lines 98-115: create, poll, publish, flip [posted]. *)
Definition publish_row (fuel : nat) (r : row) : M row :=
  let video_url := PyStr.strip (row_get r "video_url" "") in
  let caption := PyStr.strip (row_get r "caption" "") in
  let share_to_feed := parse_bool (row_get r "share_to_feed" "true") in
  let cover_url :=
    let c := PyStr.strip (row_get r "cover_url" "") in
    if PyStr.truthy c then Some c else None in
  print ("[INFO] Creating container for due reel: " ++ video_url) ;;;
  let* container_id :=
    create_reel_container video_url caption share_to_feed cover_url in
  print ("[OK] Container: " ++ container_id) ;;;
  print "[INFO] Polling container status..." ;;;
  let* _ := poll_container_ready fuel container_id in
  print "[OK] Container ready, publishing…" ;;;
  let* media_id := publish_container container_id in
  print ("[OK] Published IG Media ID: " ++ media_id) ;;;
  ret (<["posted" := "true"]> r).

(** The body of the [for] loop (lines 82-115): the row as it is left, and
    whether [changed] was set. *)
Definition process_row (fuel : nat) (now_ist : datetime) (r : row)
    : M (row * bool) :=
  match due_gate now_ist r with
  | NotDue None => ret (r, false)
  | NotDue (Some line) => print line ;;; ret (r, false)
  | IsDue => let* r' := publish_row fuel r in ret (r', true)
  end.

(** lines 80-115: the rows as the loop leaves them, and [changed]. *)
Fixpoint main_loop (fuel : nat) (now_ist : datetime) (rows : list row)
    : M (list row * bool) :=
  match rows with
  | [] => ret ([], false)
  | r :: rest =>
      let* (r', c) := process_row fuel now_ist r in
      let* (rest', changed) := main_loop fuel now_ist rest in
      ret (r' :: rest', c || changed)
  end.

(** lines 72-76 *)
Definition read_manifest : M (list row) :=
  λ w, match manifest w with
       | Some rows => (Ret rows, w)
       | None => (Raise (OSError "cannot open the manifest"), w)
       end.

(** lines 119-123 *)
Definition write_manifest (rows : list row) : M unit :=
  λ w, (Ret tt, mkWorld (clock w) (requests_sent w)
                        (trace w ++ [EvWrite rows]) (Some rows)).

(** [main]; [now] is what [datetime.now(IST)] returns on line 78. *)
Definition main (fuel : nat) (now : datetime) : M unit :=
  let* rows := read_manifest in
  let now_ist := replace_second0 now in
  let* (rows', changed) := main_loop fuel now_ist rows in
  if changed then
    write_manifest rows' ;;;
    print "[OK] Manifest updated."
  else print "[INFO] Nothing due to publish.".

End Scheduler.


(* ===================================================================== *)
(** ** Vocabulary of the statements *)
(* ===================================================================== *)

(** The reply is a JSON object whose ["status_code"] field is [st]
    ([None]: the field is absent). *)
Definition answers_status (rp : reply) (st : option string) : Prop :=
  ∃ data, body rp = Some data ∧ data !! "status_code" = st.

(** The reply is a JSON object whose ["id"] field is [id]. *)
Definition answers_id (rp : reply) (id : string) : Prop :=
  ∃ data, body rp = Some data ∧ data !! "id" = Some id.

(** A status that is none of FINISHED, ERROR, EXPIRED. *)
Definition pending (st : option string) : Prop :=
  st ≠ Some "FINISHED" ∧ st ≠ Some "ERROR" ∧ st ≠ Some "EXPIRED".

Definition timeout_error (cid : string) : exn :=
  TimeoutError ("Container " ++ cid ++ " not ready within timeout.").

Definition status_error (cid st : string) : exn :=
  RuntimeError ("Container " ++ cid ++ " failed with status: " ++ st).

(** What a poll leaves in the trace: status queries of its container and
    sleeps of the configured length. *)
Definition poll_events (POLL_INTERVAL : Z) (cid : string)
    (evs : list event) : Prop :=
  Forall (λ e, e = EvStatus cid ∨ e = EvSleep POLL_INTERVAL) evs.

(** The form data [publish_row] sends for the row [r]. *)
Definition row_payload (ACCESS_TOKEN : string) (r : row) : gmap string string :=
  create_payload ACCESS_TOKEN
    (PyStr.strip (row_get r "video_url" ""))
    (PyStr.strip (row_get r "caption" ""))
    (parse_bool (row_get r "share_to_feed" "true"))
    (let c := PyStr.strip (row_get r "cover_url" "") in
     if PyStr.truthy c then Some c else None).

(** The world [publish_row] has reached when it starts polling the
    container [cid] it has created for the row [r]. *)
Definition created (ACCESS_TOKEN : string) (server : nat → reply)
    (r : row) (cid : string) (w : World) : World :=
  logged (EvPrint "[INFO] Polling container status...")
 (logged (EvPrint ("[OK] Container: " ++ cid))
 (answered server (EvCreate (row_payload ACCESS_TOKEN r))
 (logged (EvPrint ("[INFO] Creating container for due reel: "
                   ++ PyStr.strip (row_get r "video_url" ""))) w))).

(** What is left of [publish_row] once the container [cid] exists
    (lines 107-114). *)
Definition after_create (POLL_INTERVAL POLL_TIMEOUT : Z)
    (server : nat → reply) (fuel : nat) (r : row) (cid : string) : M row :=
  poll_container_ready POLL_INTERVAL POLL_TIMEOUT server fuel cid ;;;
  print "[OK] Container ready, publishing…" ;;;
  let* media_id := publish_container server cid in
  print ("[OK] Published IG Media ID: " ++ media_id) ;;;
  ret (<["posted" := "true"]> r).





Definition is_due (g : gate) : bool :=
  match g with IsDue => true | NotDue _ => false end.

(** A row is newly due at [now2] when it is due then and was not due at
    [now1]. *)
Definition newly_due (IST_localize : option (datetime → option datetime))
    (now1 now2 : datetime) (r : row) : bool :=
  is_due (due_gate IST_localize (replace_second0 now2) r)
  && negb (is_due (due_gate IST_localize (replace_second0 now1) r)).

(** A computation that leaves the manifest alone: the file is as it was,
    and nothing that was added to the trace is a write. *)
Definition quiet {A} (m : M A) : Prop :=
  ∀ w, manifest (m w).2 = manifest w
       ∧ ∃ evs, trace (m w).2 = (trace w ++ evs)%list
                ∧ count is_write evs = 0%nat.

(** What the loop body does to a row: nothing when the row is not due,
    [posted] set to ["true"] and [changed] set when it is. *)
Definition row_step (IST_localize : option (datetime → option datetime))
    (now_ist : datetime) (r r' : row) (c : bool) : Prop :=
  (due_gate IST_localize now_ist r ≠ IsDue ∧ r' = r ∧ c = false)
  ∨ (due_gate IST_localize now_ist r = IsDue
     ∧ r' = <["posted" := "true"]> r ∧ c = true).

(** The outcome of a loop over the rows, with the row [r] put back at
    position [i]. *)
Definition insert_row (i : nat) (r : row)
    (res : result (list row * bool)) : result (list row * bool) :=
  match res with
  | Ret (rows, changed) =>
      Ret ((take i rows ++ r :: drop i rows)%list, changed)
  | Raise e => Raise e
  | OutOfFuel => OutOfFuel
  end.

Definition is_print (e : event) : bool :=
  match e with EvPrint _ => true | _ => false end.

(* ===================================================================== *)
(** ** Sample manifests and servers *)
(* ===================================================================== *)

Module Demo.

Definition mk_row (posted scheduled video : string) : row :=
  <["cover_url" := ""]>
  (<["share_to_feed" := "true"]>
  (<["caption" := "hello"]>
  (<["video_url" := video]>
  (<["scheduled_time_ist" := scheduled]>
  (<["posted" := posted]> ∅))))).

(** Noon of 2024-03-09, thirty seconds and a few microseconds in. *)
Definition noon : datetime := mkDatetime 2024 3 9 12 0 30 4521.
Definition one_pm : datetime := mkDatetime 2024 3 9 13 0 2 17.

Definition row_a : row := mk_row "false" "2024-03-09 11:59" "https://cdn/a.mp4".
Definition row_b : row := mk_row "" "2024-03-09 10:00" "https://cdn/b.mp4".
Definition row_posted : row := mk_row " Yes " "2024-03-01 09:00" "https://cdn/p.mp4".
Definition row_later : row := mk_row "false" "2024-03-10 08:30" "https://cdn/l.mp4".
Definition row_legacy : row :=
  mk_row "false" "2024-03-09 10:00:00Z-legacy" "https://cdn/g.mp4".

Definition json (d : nat) (key value : string) : reply :=
  mkReply d (Some {[ key := value ]}).
Definition failure (d : nat) : reply := mkReply d None.

(** Every request fails. *)
Definition server_down (n : nat) : reply := failure 2.

(** The first container is created, found ready and published; every
    request after that fails. *)
Definition server_one_then_down (n : nat) : reply :=
  match n with
  | 0%nat => json 1 "id" "c1"
  | 1%nat => json 1 "status_code" "FINISHED"
  | 2%nat => json 1 "id" "m1"
  | _ => failure 2
  end.

(** One object with both fields answers every request: containers are
    created as ["c1"] and stay IN_PROGRESS; each answer takes a second. *)
Definition server_stuck (n : nat) : reply :=
  mkReply 1 (Some (<["status_code" := "IN_PROGRESS"]> {[ "id" := "c1" ]})).

(** Create, two polls in progress, a poll finished, publish. *)
Definition server_slow (n : nat) : reply :=
  match n with
  | 0%nat => json 1 "id" "c1"
  | 1%nat => json 1 "status_code" "IN_PROGRESS"
  | 2%nat => json 2 "status_code" "IN_PROGRESS"
  | 3%nat => json 1 "status_code" "FINISHED"
  | 4%nat => json 1 "id" "m1"
  | _ => failure 0
  end.

(** Create, then a container that has expired. *)
Definition server_expired (n : nat) : reply :=
  match n with
  | 0%nat => json 1 "id" "c1"
  | _ => json 1 "status_code" "EXPIRED"
  end.

(** Create, then a status that means nothing to the script, then FINISHED. *)
Definition server_odd (n : nat) : reply :=
  match n with
  | 0%nat => json 1 "id" "c1"
  | 1%nat => json 1 "status_code" "PUBLISHED"
  | _ => json 1 "status_code" "FINISHED"
  end.

(** Every poll answers FINISHED at once. *)
Definition server_ready (n : nat) : reply :=
  mkReply 0 (Some (<["status_code" := "FINISHED"]> {[ "id" := "c1" ]})).

Definition world (rows : list row) : World :=
  mkWorld 1700000000 0 [] (Some rows).

Definition world_no_manifest : World := mkWorld 1700000000 0 [] None.

End Demo.

(* ===================================================================== *)
(** ** More vocabulary *)
(* ===================================================================== *)

(** A text made of white space only. *)
Fixpoint all_space (s : string) : bool :=
  match s with
  | String c t => PyStr.isspace c && all_space t
  | EmptyString => true
  end.

(** The rows of a manifest that are due at [now_ist]. *)
Definition due_rows (IST_localize : option (datetime → option datetime))
    (now_ist : datetime) (rows : list row) : list row :=
  filter (λ r, is_due (due_gate IST_localize now_ist r) = true) rows.

(** The form fields a create request may carry. *)
Definition payload_keys : list string :=
  ["media_type"; "video_url"; "caption"; "share_to_feed"; "access_token";
   "cover_url"].

Module DemoMore.

(** The container is created and found ready; the publish request is
    answered without an [id]. *)
Definition server_no_media_id (n : nat) : reply :=
  match n with
  | 0%nat => Demo.json 1 "id" "c1"
  | 1%nat => Demo.json 1 "status_code" "FINISHED"
  | _ => Demo.json 1 "status" "ok"
  end.

(** The create request is answered without an [id]. *)
Definition server_no_container_id (n : nat) : reply :=
  Demo.json 1 "error" "quota".

Definition row_bad_time : row :=
  Demo.mk_row "no" "09/03/2024 10:00" "https://cdn/x.mp4".

End DemoMore.
Example strptime_plain :
  Strptime.strptime "2024-03-09 18:05" = Some (mkDatetime 2024 3 9 18 5 0 0).
Proof. reflexivity. Qed.

Example strptime_short_fields :
  Strptime.strptime "2024-3- 9   7:5" = Some (mkDatetime 2024 3 9 7 5 0 0).
Proof. reflexivity. Qed.

Example strptime_seconds_refused :
  Strptime.strptime "2024-03-09 18:05:00" = None.
Proof. reflexivity. Qed.

Example strptime_feb30_refused : Strptime.strptime "2023-02-30 10:00" = None.
Proof. reflexivity. Qed.

Example parse_bool_examples :
  parse_bool " TRUE " = true ∧ parse_bool "Yes" = true
  ∧ parse_bool "no" = false ∧ parse_bool "" = false.
Proof. repeat split; reflexivity. Qed.

(* ===================================================================== *)
(** ** Facts about strings and the matcher *)
(* ===================================================================== *)

Module PyStrFacts.
Import PyStr.

Fixpoint last_char (s : string) : option ascii :=
  match s with
  | EmptyString => None
  | String c t => match t with EmptyString => Some c | _ => last_char t end
  end.

Lemma append_nil (t : string) : "" ++ t = t.
Proof. reflexivity. Qed.

Lemma append_cons (c : ascii) (s t : string) :
  String c s ++ t = String c (s ++ t).
Proof. reflexivity. Qed.

Lemma append_empty_inv (s t : string) : s ++ t = "" → t = "".
Proof. destruct s; [by rewrite append_nil | by rewrite append_cons]. Qed.

Lemma last_char_app (s t : string) :
  t ≠ "" → last_char (s ++ t) = last_char t.
Proof.
  intros Ht. induction s as [|c s IH]; [done|].
  rewrite append_cons. simpl. rewrite IH.
  destruct (s ++ t) eqn:E; [|done].
  by apply append_empty_inv in E.
Qed.

Lemma endswith_refl (s : string) : endswith s s = true.
Proof. destruct s; cbn [endswith]; by rewrite bool_decide_eq_true_2. Qed.

Lemma endswith_spec (s suffix : string) :
  endswith s suffix = true ↔ ∃ pre, s = pre ++ suffix.
Proof.
  split.
  - induction s as [|c s IH]; cbn [endswith].
    + rewrite orb_false_r. intros H%bool_decide_eq_true. by exists "".
    + intros [H%bool_decide_eq_true | H]%orb_true_iff.
      * by exists "".
      * destruct (IH H) as [pre ->]. by exists (String c pre).
  - intros [pre ->]. induction pre as [|c pre IH].
    + rewrite append_nil. apply endswith_refl.
    + rewrite append_cons. cbn [endswith]. rewrite IH. apply orb_true_r.
Qed.

Lemma lstrip_app_nonspace (pre : string) (c : ascii) (t : string) :
  isspace c = false →
  ∃ pre', lstrip (pre ++ String c t) = pre' ++ String c t.
Proof.
  intros Hc. induction pre as [|a pre IH]; simpl.
  - rewrite Hc. by exists "".
  - destruct (isspace a); [done|]. by exists (String a pre).
Qed.

Lemma rstrip_keeps (s : string) :
  match last_char s with
  | Some c => isspace c = false → rstrip s = s
  | None => True
  end.
Proof.
  induction s as [|a s IH]; simpl; [done|].
  destruct s as [|b s'].
  - simpl. intros ->. done.
  - destruct (last_char (String b s')) eqn:E; [|done].
    intros Hc. rewrite (IH Hc). done.
Qed.

(** A suffix that starts and ends with something other than white space
    survives [strip]. *)
Lemma strip_keeps_suffix (s : string) (c : ascii) (t : string) (z : ascii) :
  isspace c = false → last_char (String c t) = Some z → isspace z = false →
  endswith s (String c t) = true → endswith (strip s) (String c t) = true.
Proof.
  intros Hc Hz Hzs [pre ->]%endswith_spec. apply endswith_spec.
  destruct (lstrip_app_nonspace pre c t Hc) as [pre' E].
  exists pre'. unfold strip. rewrite E.
  pose proof (rstrip_keeps (pre' ++ String c t)) as Hk.
  rewrite last_char_app in Hk by done. rewrite Hz in Hk. by apply Hk.
Qed.

End PyStrFacts.

Module StrptimeFacts.
Import PyStr PyStrFacts Strptime.

(** [rest] is what is left of [s] after a prefix that ends with a digit. *)
Definition after_digit (s rest : string) : Prop :=
  ∃ pre c, s = pre ++ String c rest ∧ isdigit c = true.

Definition suffix_of (s rest : string) : Prop := ∃ pre, s = pre ++ rest.

Lemma suffix_of_refl s : suffix_of s s.
Proof. by exists "". Qed.

Lemma append_assoc (a b c : string) : (a ++ b) ++ c = a ++ (b ++ c).
Proof. induction a; [done|]. rewrite !append_cons. congruence. Qed.

Lemma suffix_of_cons c s rest : suffix_of s rest → suffix_of (String c s) rest.
Proof. intros [pre ->]. by exists (String c pre). Qed.

Lemma suffix_after_digit s t rest :
  suffix_of s t → after_digit t rest → after_digit s rest.
Proof.
  intros [p ->] (pre & c & -> & Hc). exists (p ++ pre), c.
  by rewrite append_assoc.
Qed.

Section Inversion.
Context {R : Type}.
Implicit Types (r : R) (s : string).

Lemma orelse_inv (a b : option R) r :
  orelse a b = Some r → a = Some r ∨ b = Some r.
Proof. destruct a; simpl; auto. Qed.

Lemma chr_inv p (k : ascii → string → option R) s r :
  chr p k s = Some r → ∃ c t, s = String c t ∧ p c = true ∧ k c t = Some r.
Proof.
  destruct s as [|c t]; simpl; [done|].
  destruct (p c) eqn:E; [|done]. eauto.
Qed.

Lemma lit_inv c (k : string → option R) s r :
  lit c k s = Some r → ∃ t, suffix_of s t ∧ k t = Some r.
Proof.
  intros (c' & t & -> & _ & H)%chr_inv. exists t. split; [|done].
  by exists (String c' "").
Qed.

Lemma spaces_star_inv (k : string → option R) s r :
  spaces_star k s = Some r → ∃ t, suffix_of s t ∧ k t = Some r.
Proof.
  induction s as [|c s IH]; simpl.
  - intros H. exists "". split; [apply suffix_of_refl|done].
  - destruct (isspace c).
    + intros [H|H]%orelse_inv.
      * destruct (IH H) as (t & Ht & Hk). exists t.
        split; [by apply suffix_of_cons|done].
      * exists (String c s). split; [apply suffix_of_refl|done].
    + intros H. exists (String c s). split; [apply suffix_of_refl|done].
Qed.

Lemma spaces_plus_inv (k : string → option R) s r :
  spaces_plus k s = Some r → ∃ t, suffix_of s t ∧ k t = Some r.
Proof.
  intros (c & t & -> & _ & H)%chr_inv.
  destruct (spaces_star_inv _ _ _ H) as (t' & Ht' & Hk).
  exists t'. split; [by apply suffix_of_cons|done].
Qed.

(** Two characters, then one character: the shapes of the groups. *)
Lemma chr2_inv p q (f : ascii → ascii → Z) (k : Z → string → option R) s r :
  chr p (λ a, chr q (λ c, k (f a c))) s = Some r →
  ∃ v c t, suffix_of s (String c t) ∧ q c = true ∧ k v t = Some r.
Proof.
  intros (a & t & -> & _ & (c & t' & -> & Hq & H)%chr_inv)%chr_inv.
  exists (f a c), c, t'. split; [|done]. by exists (String a "").
Qed.

Lemma chr1_inv q (f : ascii → Z) (k : Z → string → option R) s r :
  chr q (λ c, k (f c)) s = Some r →
  ∃ v c t, suffix_of s (String c t) ∧ q c = true ∧ k v t = Some r.
Proof.
  intros (c & t & -> & Hq & H)%chr_inv.
  exists (f c), c, t. split; [apply suffix_of_refl|done].
Qed.

Lemma re_Y_inv (k : Z → string → option R) s r :
  re_Y k s = Some r → ∃ v t, suffix_of s t ∧ k v t = Some r.
Proof.
  unfold re_Y.
  intros (a & t1 & -> & _ & (b & t2 & -> & _ & (c & t3 & -> & _ &
    (d & t4 & -> & _ & H)%chr_inv)%chr_inv)%chr_inv)%chr_inv.
  eexists _, t4. split; [|exact H].
  by exists (String a (String b (String c (String d "")))).
Qed.

Lemma group_suffix (v : Z) (c : ascii) s t r (k : Z → string → option R) :
  suffix_of s (String c t) → k v t = Some r →
  ∃ v t, suffix_of s t ∧ k v t = Some r.
Proof.
  intros [pre ->] H. exists v, t. split; [|done].
  exists (pre ++ String c ""). by rewrite append_assoc.
Qed.

Lemma re_m_inv (k : Z → string → option R) s r :
  re_m k s = Some r → ∃ v t, suffix_of s t ∧ k v t = Some r.
Proof.
  unfold re_m, lit.
  intros [H|[H|H]%orelse_inv]%orelse_inv.
  - apply (chr2_inv _ _ (λ _ c, 10 + digit_val c)) in H
      as (v & c & t & Hs & _ & Hk). eauto using group_suffix.
  - apply (chr2_inv _ _ (λ _ c, digit_val c)) in H
      as (v & c & t & Hs & _ & Hk). eauto using group_suffix.
  - apply (chr1_inv _ digit_val) in H
      as (v & c & t & Hs & _ & Hk). eauto using group_suffix.
Qed.

Lemma re_d_inv (k : Z → string → option R) s r :
  re_d k s = Some r → ∃ v t, suffix_of s t ∧ k v t = Some r.
Proof.
  unfold re_d, lit.
  intros [H|[H|[H|[H|H]%orelse_inv]%orelse_inv]%orelse_inv]%orelse_inv.
  - apply (chr2_inv _ _ (λ _ c, 30 + digit_val c)) in H
      as (v & c & t & Hs & _ & Hk). eauto using group_suffix.
  - apply (chr2_inv _ _ (λ a c, 10 * digit_val a + digit_val c)) in H
      as (v & c & t & Hs & _ & Hk). eauto using group_suffix.
  - apply (chr2_inv _ _ (λ _ c, digit_val c)) in H
      as (v & c & t & Hs & _ & Hk). eauto using group_suffix.
  - apply (chr1_inv _ digit_val) in H
      as (v & c & t & Hs & _ & Hk). eauto using group_suffix.
  - apply (chr2_inv _ _ (λ _ c, digit_val c)) in H
      as (v & c & t & Hs & _ & Hk). eauto using group_suffix.
Qed.

Lemma re_H_inv (k : Z → string → option R) s r :
  re_H k s = Some r → ∃ v t, suffix_of s t ∧ k v t = Some r.
Proof.
  unfold re_H, lit.
  intros [H|[H|H]%orelse_inv]%orelse_inv.
  - apply (chr2_inv _ _ (λ _ c, 20 + digit_val c)) in H
      as (v & c & t & Hs & _ & Hk). eauto using group_suffix.
  - apply (chr2_inv _ _ (λ a c, 10 * digit_val a + digit_val c)) in H
      as (v & c & t & Hs & _ & Hk). eauto using group_suffix.
  - apply (chr1_inv _ digit_val) in H
      as (v & c & t & Hs & _ & Hk). eauto using group_suffix.
Qed.

(** The minute group ends with a digit in both of its alternatives. *)
Lemma re_M_inv (k : Z → string → option R) s r :
  re_M k s = Some r → ∃ v t, after_digit s t ∧ k v t = Some r.
Proof.
  unfold re_M.
  intros [H|H]%orelse_inv.
  - apply (chr2_inv _ _ (λ a c, 10 * digit_val a + digit_val c)) in H
      as (v & c & t & [pre ->] & Hc & Hk).
    exists v, t. split; [|done]. by exists pre, c.
  - apply (chr1_inv _ digit_val) in H
      as (v & c & t & [pre ->] & Hc & Hk).
    exists v, t. split; [|done]. by exists pre, c.
Qed.
End Inversion.

Lemma suffix_of_trans a b c : suffix_of a b → suffix_of b c → suffix_of a c.
Proof. intros [p ->] [q ->]. exists (p ++ q). by rewrite append_assoc. Qed.

(** Whatever [match_format] matches ends with a digit. *)
Lemma match_format_after_digit s y m d h mi rest :
  match_format s = Some (y, m, d, h, mi, rest) → after_digit s rest.
Proof.
  unfold match_format.
  intros (? & s1 & S1 & H)%re_Y_inv.
  apply lit_inv in H as (s2 & S2 & H).
  apply re_m_inv in H as (? & s3 & S3 & H).
  apply lit_inv in H as (s4 & S4 & H).
  apply re_d_inv in H as (? & s5 & S5 & H).
  apply spaces_plus_inv in H as (s6 & S6 & H).
  apply re_H_inv in H as (? & s7 & S7 & H).
  apply lit_inv in H as (s8 & S8 & H).
  apply re_M_inv in H as (? & s9 & S9 & H).
  injection H as -> -> -> -> -> ->.
  eapply suffix_after_digit; [|exact S9].
  repeat (eapply suffix_of_trans; [eassumption|]). apply suffix_of_refl.
Qed.

(** A text that [strptime] accepts ends with a decimal digit. *)
Lemma strptime_last_digit s dt :
  strptime s = Some dt → ∃ c, last_char s = Some c ∧ isdigit c = true.
Proof.
  unfold strptime.
  destruct (match_format s) as [[[[[[y m] d] h] mi] rest]|] eqn:E; [|done].
  destruct rest; [|done]. intros _.
  apply match_format_after_digit in E as (pre & c & -> & Hc).
  exists c. split; [|done]. by rewrite last_char_app.
Qed.


Lemma strptime_refuses_legacy s :
  endswith s ":00Z-legacy" = true → strptime s = None.
Proof.
  intros [pre ->]%endswith_spec.
  destruct (strptime (pre ++ ":00Z-legacy")) as [dt|] eqn:E; [|done].
  apply strptime_last_digit in E as (c & Hl & Hc).
  rewrite last_char_app in Hl by done. simpl in Hl.
  injection Hl as <-. discriminate Hc.
Qed.

End StrptimeFacts.

(* ===================================================================== *)
(** ** Traces *)
(* ===================================================================== *)

Lemma events_since_app (w w' : World) (evs : list event) :
  trace w' = (trace w ++ evs)%list → events_since w w' = evs.
Proof. intros E. unfold events_since. rewrite E. by rewrite drop_app_length. Qed.


Lemma count_app (p : event → bool) (l1 l2 : list event) :
  count p (l1 ++ l2)%list = (count p l1 + count p l2)%nat.
Proof. unfold count. by rewrite filter_app, length_app. Qed.

Lemma count_cons (p : event → bool) (e : event) (l : list event) :
  count p (e :: l) = ((if p e then 1 else 0) + count p l)%nat.
Proof.
  unfold count. rewrite filter_cons. destruct (p e) eqn:E.
  - by rewrite decide_True.
  - rewrite decide_False; [done | congruence].
Qed.

Lemma count_nil (p : event → bool) : count p [] = 0%nat.
Proof. reflexivity. Qed.

Lemma count_none (p : event → bool) (l : list event) :
  Forall (λ e, p e = false) l → count p l = 0%nat.
Proof.
  induction 1 as [|e l He _ IH]; [done|].
  by rewrite count_cons, He, IH.
Qed.

(* ===================================================================== *)
(** ** The polling loop *)
(* ===================================================================== *)

Section Polling.

Variable POLL_INTERVAL : Z.
Variable POLL_TIMEOUT : Z.
Variable server : nat → reply.

Implicit Types (w : World) (cid : string) (fuel : nat).

Lemma poll_loop_request_fails fuel cid start w :
  body (server (requests_sent w)) = None →
  poll_loop POLL_INTERVAL POLL_TIMEOUT server (S fuel) cid start w
  = (Raise RequestException, answered server (EvStatus cid) w).
Proof. intros E. cbn [poll_loop]. unfold bind, http. by rewrite E. Qed.

Lemma poll_loop_finished fuel cid start w :
  answers_status (server (requests_sent w)) (Some "FINISHED") →
  poll_loop POLL_INTERVAL POLL_TIMEOUT server (S fuel) cid start w
  = (Ret true, answered server (EvStatus cid) w).
Proof.
  intros (data & E & Hs). cbn [poll_loop]. unfold bind, http.
  rewrite E, Hs. by rewrite bool_decide_eq_true_2.
Qed.

Lemma poll_loop_failed fuel cid start w st :
  st = "ERROR" ∨ st = "EXPIRED" →
  answers_status (server (requests_sent w)) (Some st) →
  poll_loop POLL_INTERVAL POLL_TIMEOUT server (S fuel) cid start w
  = (Raise (status_error cid st), answered server (EvStatus cid) w).
Proof.
  intros Hst (data & E & Hs). cbn [poll_loop]. unfold bind, http.
  rewrite E, Hs. rewrite bool_decide_eq_false_2 by (destruct Hst; by subst).
  rewrite bool_decide_eq_true_2; [done|].
  destruct Hst; subst; set_solver.
Qed.

(** One turn of the loop on a status that is none of the three. *)
Lemma poll_loop_pending fuel cid start w st :
  pending st →
  answers_status (server (requests_sent w)) st →
  poll_loop POLL_INTERVAL POLL_TIMEOUT server (S fuel) cid start w
  = let w1 := answered server (EvStatus cid) w in
    if POLL_TIMEOUT <? clock w1 - start
    then (Raise (timeout_error cid), w1)
    else if POLL_INTERVAL <? 0
    then (Raise (ValueError "sleep length must be non-negative"), w1)
    else poll_loop POLL_INTERVAL POLL_TIMEOUT server fuel cid start
           (slept POLL_INTERVAL w1).
Proof.
  intros (Hf & He & Hx) (data & E & Hs). cbn [poll_loop].
  unfold bind, http. rewrite E, Hs.
  rewrite bool_decide_eq_false_2 by done.
  rewrite bool_decide_eq_false_2
    by (rewrite !elem_of_cons, elem_of_nil; tauto).
  unfold time_time, time_sleep. cbn zeta.
  destruct (POLL_TIMEOUT <? _); [done|].
  by destruct (POLL_INTERVAL <? 0).
Qed.

Lemma poll_loop_trace fuel cid start w :
  ∃ evs, trace (poll_loop POLL_INTERVAL POLL_TIMEOUT server fuel cid start w).2
         = (trace w ++ evs)%list
       ∧ poll_events POLL_INTERVAL cid evs
       ∧ manifest (poll_loop POLL_INTERVAL POLL_TIMEOUT server fuel cid start w).2
         = manifest w.
Proof.
  revert w. induction fuel as [|fuel IH]; intros w.
  - exists []. cbn. rewrite app_nil_r. repeat split. constructor.
  - cbn [poll_loop]. unfold bind, http.
    destruct (body (server (requests_sent w))) as [data|].
    2:{ exists [EvStatus cid]. cbn. split; [done|]. split; [repeat constructor|done]. }
    destruct (bool_decide _).
    { exists [EvStatus cid]. cbn. split; [done|]. split; [repeat constructor|done]. }
    destruct (bool_decide _).
    { exists [EvStatus cid]. cbn. split; [done|]. split; [repeat constructor|done]. }
    unfold time_time, time_sleep.
    destruct (POLL_TIMEOUT <? _).
    { exists [EvStatus cid]. cbn. split; [done|]. split; [repeat constructor|done]. }
    destruct (POLL_INTERVAL <? 0).
    { exists [EvStatus cid]. cbn. split; [done|]. split; [repeat constructor|done]. }
    unfold raise. cbn beta iota.
    destruct (IH (slept POLL_INTERVAL (answered server (EvStatus cid) w)))
      as (evs & Ht & Hev & Hm).
    exists (EvStatus cid :: EvSleep POLL_INTERVAL :: evs).
    split; [|split].
    + rewrite Ht. cbn [slept answered trace]. by rewrite <- !app_assoc.
    + constructor; [by left|]. constructor; [by right|done].
    + by rewrite Hm.
Qed.

Lemma poll_container_ready_unfold fuel cid w :
  poll_container_ready POLL_INTERVAL POLL_TIMEOUT server fuel cid w
  = poll_loop POLL_INTERVAL POLL_TIMEOUT server fuel cid (clock w) w.
Proof. reflexivity. Qed.

(** With fuel for one turn, the loop starts with a status query. *)
Lemma poll_loop_first_query fuel cid start w :
  ∃ evs, trace (poll_loop POLL_INTERVAL POLL_TIMEOUT server
                  (S fuel) cid start w).2
         = (trace w ++ EvStatus cid :: evs)%list.
Proof.
  cbn [poll_loop]. unfold bind, http.
  destruct (body (server (requests_sent w))) as [data|]; [|by exists []].
  destruct (bool_decide _); [by exists []|].
  destruct (bool_decide _); [by exists []|].
  unfold time_time, time_sleep.
  destruct (POLL_TIMEOUT <? _); [by exists []|].
  destruct (POLL_INTERVAL <? 0); [by exists []|].
  destruct (poll_loop_trace fuel cid start
              (slept POLL_INTERVAL (answered server (EvStatus cid) w)))
    as (evs & Ht & _).
  exists (EvSleep POLL_INTERVAL :: evs). cbn beta iota. rewrite Ht. cbn.
  by rewrite <- !app_assoc.
Qed.

Lemma poll_events_no_publish cid evs :
  poll_events POLL_INTERVAL cid evs → count is_publish evs = 0%nat.
Proof.
  intros H. apply count_none. eapply Forall_impl; [exact H|].
  by intros e [-> | ->].
Qed.

(** As long as every status is pending, the loop gives up once the
    sleeps alone have used up the budget: after [k] sleeps at the latest. *)
Lemma poll_loop_gives_up (k : nat) : ∀ fuel cid start w,
  (S k ≤ fuel)%nat → 0 ≤ POLL_INTERVAL →
  (∀ n, (requests_sent w ≤ n)%nat →
        ∃ st, pending st ∧ answers_status (server n) st) →
  POLL_TIMEOUT < clock w - start + POLL_INTERVAL * Z.of_nat k →
  ∃ w' evs,
    poll_loop POLL_INTERVAL POLL_TIMEOUT server fuel cid start w
    = (Raise (timeout_error cid), w')
    ∧ trace w' = (trace w ++ evs)%list
    ∧ poll_events POLL_INTERVAL cid evs
    ∧ (1 ≤ count is_status evs ≤ S k)%nat
    ∧ POLL_TIMEOUT < clock w' - start.
Proof.
  induction k as [|k IH]; intros fuel cid start w Hfuel HI Hsrv Hk.
  - destruct fuel as [|fuel]; [lia|].
    destruct (Hsrv (requests_sent w)) as (st & Hp & Ha); [lia|].
    rewrite (poll_loop_pending _ _ _ _ st Hp Ha). cbn zeta.
    assert (Hlt : POLL_TIMEOUT < clock (answered server (EvStatus cid) w) - start)
      by (cbn; lia).
    apply Z.ltb_lt in Hlt as Hb. rewrite Hb.
    eexists _, [EvStatus cid]. split; [done|]. split; [done|].
    split; [repeat constructor|]. split; [|done].
    rewrite count_cons, count_nil. cbn. lia.
  - destruct fuel as [|fuel]; [lia|].
    destruct (Hsrv (requests_sent w)) as (st & Hp & Ha); [lia|].
    rewrite (poll_loop_pending _ _ _ _ st Hp Ha). cbn zeta.
    destruct (POLL_TIMEOUT <? _) eqn:Hb.
    + apply Z.ltb_lt in Hb.
      eexists _, [EvStatus cid]. split; [done|]. split; [done|].
      split; [repeat constructor|]. split; [|done].
      rewrite count_cons, count_nil. cbn. lia.
    + assert (HI' : (POLL_INTERVAL <? 0) = false) by (apply Z.ltb_ge; lia).
      rewrite HI'.
      destruct (IH fuel cid start
                  (slept POLL_INTERVAL (answered server (EvStatus cid) w)))
        as (w' & evs & E & Ht & Hev & Hc & Hout).
      * lia.
      * done.
      * intros n Hn. apply Hsrv. cbn in Hn. lia.
      * cbn. lia.
      * exists w', (EvStatus cid :: EvSleep POLL_INTERVAL :: evs).
        split; [done|]. split.
        { rewrite Ht. cbn. by rewrite <- !app_assoc. }
        split.
        { constructor; [by left|]. constructor; [by right|done]. }
        split; [|done].
        rewrite !count_cons. cbn. lia.
Qed.

End Polling.

(* ===================================================================== *)
(** ** The lifecycle of one due row *)
(* ===================================================================== *)

Section Lifecycle.

Variable ACCESS_TOKEN : string.
Variable POLL_INTERVAL : Z.
Variable POLL_TIMEOUT : Z.
Variable server : nat → reply.

Implicit Types (w : World) (cid : string) (fuel : nat) (r : row).

Lemma publish_row_created fuel r cid w :
  answers_id (server (requests_sent w)) cid →
  publish_row ACCESS_TOKEN POLL_INTERVAL POLL_TIMEOUT server fuel r w
  = after_create POLL_INTERVAL POLL_TIMEOUT server fuel r cid (created ACCESS_TOKEN server r cid w).
Proof.
  intros (data & E & Hid).
  unfold publish_row, create_reel_container, bind, print, emit, http.
  cbn [requests_sent logged]. rewrite E, Hid. reflexivity.
Qed.

Lemma publish_row_create_fails fuel r w :
  body (server (requests_sent w)) = None →
  publish_row ACCESS_TOKEN POLL_INTERVAL POLL_TIMEOUT server fuel r w
  = (Raise RequestException,
     answered server (EvCreate (row_payload ACCESS_TOKEN r))
       (logged (EvPrint ("[INFO] Creating container for due reel: "
                         ++ PyStr.strip (row_get r "video_url" ""))) w)).
Proof.
  intros E.
  unfold publish_row, create_reel_container, bind, print, emit, http.
  cbn [requests_sent logged]. by rewrite E.
Qed.

(** An exception of the poll leaves [publish_row] as it is. *)
Lemma after_create_poll_raises fuel r cid w e w' :
  poll_container_ready POLL_INTERVAL POLL_TIMEOUT server fuel cid w
  = (Raise e, w') →
  after_create POLL_INTERVAL POLL_TIMEOUT server fuel r cid w = (Raise e, w').
Proof. intros E. unfold after_create, bind. by rewrite E. Qed.

Lemma trace_created r cid w :
  trace (created ACCESS_TOKEN server r cid w)
  = (trace w ++
     [EvPrint ("[INFO] Creating container for due reel: "
               ++ PyStr.strip (row_get r "video_url" ""));
      EvCreate (row_payload ACCESS_TOKEN r);
      EvPrint ("[OK] Container: " ++ cid);
      EvPrint "[INFO] Polling container status..."])%list.
Proof. cbn. by rewrite <- !app_assoc. Qed.

Lemma requests_sent_created r cid w :
  requests_sent (created ACCESS_TOKEN server r cid w) = S (requests_sent w).
Proof. reflexivity. Qed.

End Lifecycle.

(* ===================================================================== *)
(** ** Claims about [poll_container_ready] *)
(* ===================================================================== *)

(** C7.  When the first status polled is ERROR or EXPIRED,
    [poll_container_ready] raises at once a [RuntimeError] whose message
    ends with that status, after that single status query; in
    [publish_row] the exception passes through, so that the trace of the
    row holds one status query and no publish request. *)
Theorem poll_fails_at_once_on_error_or_expired
    (tok : string) (I T : Z) (server : nat → reply) (fuel : nat)
    (cid st : string) (w0 : World) (r : row) (w : World) :
  st = "ERROR" ∨ st = "EXPIRED" →
  answers_status (server (requests_sent w0)) (Some st) →
  answers_id (server (requests_sent w)) cid →
  answers_status (server (S (requests_sent w))) (Some st) →
  (poll_container_ready I T server (S fuel) cid w0
   = (Raise (RuntimeError ("Container " ++ cid
                           ++ " failed with status: " ++ st)),
      answered server (EvStatus cid) w0)
   ∧ events_since w0 (answered server (EvStatus cid) w0) = [EvStatus cid])
  ∧ ∃ w', publish_row tok I T server (S fuel) r w
          = (Raise (RuntimeError ("Container " ++ cid
                                  ++ " failed with status: " ++ st)), w')
        ∧ count is_status (events_since w w') = 1%nat
        ∧ count is_publish (events_since w w') = 0%nat.
Proof.
  intros Hst H0 Hid Hs. split.
  - split.
    + rewrite poll_container_ready_unfold.
      by rewrite (poll_loop_failed _ _ _ _ _ _ _ st Hst H0).
    + by apply events_since_app.
  - set (w1 := created tok server r cid w).
    exists (answered server (EvStatus cid) w1).
    assert (Hp : poll_container_ready I T server (S fuel) cid w1
                 = (Raise (status_error cid st),
                    answered server (EvStatus cid) w1)).
    { rewrite poll_container_ready_unfold.
      by rewrite (poll_loop_failed I T server fuel cid (clock w1) w1 st Hst Hs). }
    split.
    + rewrite (publish_row_created _ _ _ _ _ _ cid _ Hid).
      by apply after_create_poll_raises.
    + rewrite (events_since_app w _
                 ([EvPrint ("[INFO] Creating container for due reel: "
                            ++ PyStr.strip (row_get r "video_url" ""));
                   EvCreate (row_payload tok r);
                   EvPrint ("[OK] Container: " ++ cid);
                   EvPrint "[INFO] Polling container status...";
                   EvStatus cid])).
      * done.
      * cbn. by rewrite <- !app_assoc.
Qed.

(** C10.  Whatever the timeout, zero and negative ones too,
    [poll_container_ready] starts with a status query: the first thing it
    adds to the trace is that query, before the elapsed time is looked at.
    When the answer to it is FINISHED the poll returns [True]. *)
Theorem poll_queries_before_timeout_check
    (I T : Z) (server : nat → reply) (fuel : nat) (cid : string) (w : World) :
  (∃ evs, trace (poll_container_ready I T server (S fuel) cid w).2
          = (trace w ++ EvStatus cid :: evs)%list)
  ∧ (answers_status (server (requests_sent w)) (Some "FINISHED") →
     poll_container_ready I T server (S fuel) cid w
     = (Ret true, answered server (EvStatus cid) w)).
Proof.
  split.
  - rewrite poll_container_ready_unfold. apply poll_loop_first_query.
  - intros H. rewrite poll_container_ready_unfold.
    by rewrite (poll_loop_finished _ _ _ _ _ _ _ H).
Qed.


Lemma pending_in_progress : pending (Some "IN_PROGRESS").
Proof. by repeat split. Qed.

(** C6.  A container that answers IN_PROGRESS, IN_PROGRESS, FINISHED, with
    an interval of 8 s and a timeout of 180 s or more (the two first
    queries and the sleep between them fitting in 180 s):
    [poll_container_ready] returns after exactly three status queries, and
    [publish_row], which [main] runs on a due row, then sends exactly one
    publish request for the container. *)
Theorem poll_three_queries_then_one_publish
    (tok : string) (T : Z) (server : nat → reply) (fuel : nat)
    (cid : string) (r : row) (w : World) :
  180 ≤ T → (3 ≤ fuel)%nat →
  answers_id (server (requests_sent w)) cid →
  answers_status (server (S (requests_sent w))) (Some "IN_PROGRESS") →
  answers_status (server (S (S (requests_sent w)))) (Some "IN_PROGRESS") →
  answers_status (server (S (S (S (requests_sent w))))) (Some "FINISHED") →
  Z.of_nat (latency (server (S (requests_sent w)))) + 8
  + Z.of_nat (latency (server (S (S (requests_sent w))))) ≤ 180 →
  ∃ w2 res w' tail,
    poll_container_ready 8 T server fuel cid (created tok server r cid w)
    = (Ret true, w2)
    ∧ events_since (created tok server r cid w) w2
      = [EvStatus cid; EvSleep 8; EvStatus cid; EvSleep 8; EvStatus cid]
    ∧ publish_row tok 8 T server fuel r w = (res, w')
    ∧ events_since w w'
      = ([EvPrint ("[INFO] Creating container for due reel: "
                   ++ PyStr.strip (row_get r "video_url" ""));
          EvCreate (row_payload tok r);
          EvPrint ("[OK] Container: " ++ cid);
          EvPrint "[INFO] Polling container status...";
          EvStatus cid; EvSleep 8; EvStatus cid; EvSleep 8; EvStatus cid;
          EvPrint "[OK] Container ready, publishing…";
          EvPublish cid] ++ tail)%list
    ∧ count is_status tail = 0%nat ∧ count is_publish tail = 0%nat
    ∧ count is_status (events_since w w') = 3%nat
    ∧ count is_publish (events_since w w') = 1%nat.
Proof.
  intros HT Hfuel Hid H1 H2 H3 Hlat.
  destruct fuel as [|[|[|fuel]]]; [lia..|].
  set (w1 := created tok server r cid w).
  set (q1 := answered server (EvStatus cid) w1).
  set (q2 := answered server (EvStatus cid) (slept 8 q1)).
  set (q3 := answered server (EvStatus cid) (slept 8 q2)).
  assert (Hpoll : poll_container_ready 8 T server (S (S (S fuel))) cid w1
                  = (Ret true, q3)).
  { rewrite poll_container_ready_unfold.
    rewrite (poll_loop_pending 8 T server _ cid _ w1 _ pending_in_progress H1).
    cbn zeta. fold q1.
    assert (E1 : (T <? clock q1 - clock w1) = false)
      by (apply Z.ltb_ge; cbn; lia).
    rewrite E1. cbn [Z.ltb Z.compare].
    rewrite (poll_loop_pending 8 T server _ cid _ (slept 8 q1) _
               pending_in_progress H2).
    cbn zeta. fold q2.
    assert (E2 : (T <? clock q2 - clock w1) = false)
      by (apply Z.ltb_ge; cbn; lia).
    rewrite E2. cbn [Z.ltb Z.compare].
    by rewrite (poll_loop_finished 8 T server _ cid _ (slept 8 q2) H3). }
  assert (Htr : trace q3
                = (trace w ++
                   [EvPrint ("[INFO] Creating container for due reel: "
                             ++ PyStr.strip (row_get r "video_url" ""));
                    EvCreate (row_payload tok r);
                    EvPrint ("[OK] Container: " ++ cid);
                    EvPrint "[INFO] Polling container status...";
                    EvStatus cid; EvSleep 8; EvStatus cid; EvSleep 8;
                    EvStatus cid])%list).
  { cbn. by rewrite <- !app_assoc. }
  exists q3.
  destruct (body (server (requests_sent q3))) as [data|] eqn:Eb.
  - eexists _, _, [EvPrint ("[OK] Published IG Media ID: "
                            ++ default "" (data !! "id"))].
    split; [exact Hpoll|]. split.
    { apply events_since_app. cbn. by rewrite <- !app_assoc. }
    split.
    { rewrite (publish_row_created _ _ _ _ _ _ cid _ Hid).
      unfold after_create, bind. fold w1. rewrite Hpoll.
      unfold print, emit, publish_container, bind, http.
      cbn [requests_sent logged]. rewrite Eb. reflexivity. }
    assert (Hev : events_since w
              (logged (EvPrint ("[OK] Published IG Media ID: "
                                ++ default "" (data !! "id")))
                 (answered server (EvPublish cid)
                    (logged (EvPrint "[OK] Container ready, publishing…") q3)))
            = ([EvPrint ("[INFO] Creating container for due reel: "
                   ++ PyStr.strip (row_get r "video_url" ""));
                EvCreate (row_payload tok r);
                EvPrint ("[OK] Container: " ++ cid);
                EvPrint "[INFO] Polling container status...";
                EvStatus cid; EvSleep 8; EvStatus cid; EvSleep 8; EvStatus cid;
                EvPrint "[OK] Container ready, publishing…";
                EvPublish cid]
               ++ [EvPrint ("[OK] Published IG Media ID: "
                            ++ default "" (data !! "id"))])%list).
    { apply events_since_app. cbn [trace logged answered]. rewrite Htr.
      by rewrite <- !app_assoc. }
    rewrite Hev. by repeat split.
  - eexists _, _, [].
    split; [exact Hpoll|]. split.
    { apply events_since_app. cbn. by rewrite <- !app_assoc. }
    split.
    { rewrite (publish_row_created _ _ _ _ _ _ cid _ Hid).
      unfold after_create, bind. fold w1. rewrite Hpoll.
      unfold print, emit, publish_container, bind, http.
      cbn [requests_sent logged]. rewrite Eb. reflexivity. }
    assert (Hev : events_since w
                 (answered server (EvPublish cid)
                    (logged (EvPrint "[OK] Container ready, publishing…") q3))
            = ([EvPrint ("[INFO] Creating container for due reel: "
                   ++ PyStr.strip (row_get r "video_url" ""));
                EvCreate (row_payload tok r);
                EvPrint ("[OK] Container: " ++ cid);
                EvPrint "[INFO] Polling container status...";
                EvStatus cid; EvSleep 8; EvStatus cid; EvSleep 8; EvStatus cid;
                EvPrint "[OK] Container ready, publishing…";
                EvPublish cid] ++ [])%list).
    { apply events_since_app. cbn [trace logged answered]. rewrite Htr.
      by rewrite <- !app_assoc. }
    rewrite Hev. by repeat split.
Qed.

(** C2, as the code has it.  With a timeout of 20 s, an interval of 8 s
    and a container that answers IN_PROGRESS to every query,
    [poll_container_ready] raises the timeout error after four status
    queries at the most, when more than 20 s have gone by; in
    [publish_row] the exception passes through and no publish request is
    sent. *)
Theorem poll_gives_up_within_four_queries
    (tok : string) (server : nat → reply) (fuel : nat) (cid : string)
    (w0 : World) (r : row) (w : World) :
  (4 ≤ fuel)%nat →
  (∀ n, (requests_sent w0 ≤ n)%nat →
        answers_status (server n) (Some "IN_PROGRESS")) →
  answers_id (server (requests_sent w)) cid →
  (∀ n, (requests_sent w < n)%nat →
        answers_status (server n) (Some "IN_PROGRESS")) →
  (∃ w0', poll_container_ready 8 20 server fuel cid w0
          = (Raise (TimeoutError ("Container " ++ cid
                                  ++ " not ready within timeout.")), w0')
        ∧ (1 ≤ count is_status (events_since w0 w0') ≤ 4)%nat
        ∧ 20 < clock w0' - clock w0)
  ∧ (∃ w', publish_row tok 8 20 server fuel r w
           = (Raise (TimeoutError ("Container " ++ cid
                                   ++ " not ready within timeout.")), w')
         ∧ (1 ≤ count is_status (events_since w w') ≤ 4)%nat
         ∧ count is_publish (events_since w w') = 0%nat).
Proof.
  intros Hfuel Hs0 Hid Hs. split.
  - destruct (poll_loop_gives_up 8 20 server 3 fuel cid (clock w0) w0)
      as (w0' & evs & E & Ht & _ & Hc & Hout); [lia|lia| |lia|].
    { intros n Hn. exists (Some "IN_PROGRESS").
      split; [apply pending_in_progress|by apply Hs0]. }
    exists w0'. rewrite poll_container_ready_unfold.
    split; [exact E|]. by rewrite (events_since_app _ _ _ Ht).
  - set (w1 := created tok server r cid w).
    destruct (poll_loop_gives_up 8 20 server 3 fuel cid (clock w1) w1)
      as (w' & evs & E & Ht & Hev & Hc & Hout); [lia|lia| |lia|].
    { intros n Hn. exists (Some "IN_PROGRESS").
      split; [apply pending_in_progress|]. apply Hs.
      pose proof (requests_sent_created tok server r cid w) as Hrs.
      fold w1 in Hrs. lia. }
    exists w'. split.
    + rewrite (publish_row_created _ _ _ _ _ _ cid _ Hid).
      apply after_create_poll_raises. by rewrite poll_container_ready_unfold.
    + rewrite (events_since_app w w'
                 ([EvPrint ("[INFO] Creating container for due reel: "
                            ++ PyStr.strip (row_get r "video_url" ""));
                   EvCreate (row_payload tok r);
                   EvPrint ("[OK] Container: " ++ cid);
                   EvPrint "[INFO] Polling container status..."] ++ evs)).
      * rewrite !count_app, !count_cons, !count_nil.
        rewrite (poll_events_no_publish _ _ _ Hev).
        cbn [is_status is_publish]. lia.
      * rewrite Ht. unfold w1. rewrite trace_created.
        by rewrite <- !app_assoc.
Qed.

(* ===================================================================== *)
(** ** The gate *)
(* ===================================================================== *)

Section Gate.

Variable IST_localize : option (datetime → option datetime).

Lemma parse_schedule_legacy (s : string) :
  PyStr.endswith s ":00Z-legacy" = true →
  parse_schedule IST_localize s = None.
Proof.
  intros H. unfold parse_schedule. rewrite H.
  rewrite (StrptimeFacts.strptime_refuses_legacy s H).
  destruct (PyStr.truthy s); [|done].
  by destruct IST_localize.
Qed.

(** The legacy branch never yields a time, so parsing a schedule is
    [strptime] alone. *)
Lemma parse_schedule_is_strptime (s : string) :
  parse_schedule IST_localize s = Strptime.strptime s.
Proof.
  unfold parse_schedule.
  destruct (PyStr.truthy s && PyStr.endswith s ":00Z-legacy") eqn:E; [|done].
  apply andb_true_iff in E as [_ E].
  rewrite (StrptimeFacts.strptime_refuses_legacy s E).
  by destruct IST_localize.
Qed.


Lemma parse_bool_true : parse_bool "true" = true.
Proof. reflexivity. Qed.

Lemma due_gate_posted now (r : row) :
  parse_bool (row_get r "posted" "false") = true →
  due_gate IST_localize now r = NotDue None.
Proof. intros H. unfold due_gate. by rewrite H. Qed.

Lemma due_gate_flipped now (r : row) :
  due_gate IST_localize now (<["posted" := "true"]> r) = NotDue None.
Proof.
  apply due_gate_posted. unfold row_get.
  by rewrite lookup_insert_eq.
Qed.

End Gate.

(** C9.  A schedule text that ends with [:00Z-legacy] (before or after the
    white space around it is stripped) never parses: [strptime] refuses
    it, so the branch that calls [IST.localize] yields no time whatever
    [IST.localize] is; the row is never due, and, unless it is marked
    posted, it is passed over with the warning line. *)
Theorem legacy_suffix_never_parses
    (IST_localize : option (datetime → option datetime))
    (tok : string) (I T : Z) (server : nat → reply) (fuel : nat)
    (now_ist : datetime) (r : row) (w : World) :
  PyStr.endswith (row_get r "scheduled_time_ist" "") ":00Z-legacy" = true
  ∨ PyStr.endswith (PyStr.strip (row_get r "scheduled_time_ist" ""))
      ":00Z-legacy" = true →
  let sched_str := PyStr.strip (row_get r "scheduled_time_ist" "") in
  Strptime.strptime sched_str = None
  ∧ parse_schedule IST_localize sched_str = None
  ∧ due_gate IST_localize now_ist r ≠ IsDue
  ∧ (parse_bool (row_get r "posted" "false") = false →
     due_gate IST_localize now_ist r
     = NotDue (Some ("[WARN] Bad time format: " ++ sched_str))
     ∧ process_row tok I T IST_localize server fuel now_ist r w
       = (Ret (r, false),
          logged (EvPrint ("[WARN] Bad time format: " ++ sched_str)) w)).
Proof.
  intros H sched_str.
  assert (Hs : PyStr.endswith sched_str ":00Z-legacy" = true).
  { destruct H as [H|H]; [|exact H].
    by apply (PyStrFacts.strip_keeps_suffix _ ":" "00Z-legacy" "y"). }
  assert (Hp := parse_schedule_legacy IST_localize sched_str Hs).
  assert (Ht : PyStr.truthy sched_str = true).
  { apply PyStrFacts.endswith_spec in Hs as [pre E]. rewrite E.
    by destruct pre. }
  assert (Hg : parse_bool (row_get r "posted" "false") = false →
               due_gate IST_localize now_ist r
               = NotDue (Some ("[WARN] Bad time format: " ++ sched_str))).
  { intros Hposted. unfold due_gate. rewrite Hposted. fold sched_str.
    by rewrite Ht, Hp. }
  split; [by apply StrptimeFacts.strptime_refuses_legacy|].
  split; [exact Hp|]. split.
  - destruct (parse_bool (row_get r "posted" "false")) eqn:Hposted.
    + by rewrite due_gate_posted.
    + by rewrite Hg.
  - intros Hposted. split; [by apply Hg|].
    unfold process_row. by rewrite (Hg Hposted).
Qed.


(* ===================================================================== *)
(** ** The run over the manifest *)
(* ===================================================================== *)

Section Quiet.

Lemma quiet_ret {A} (a : A) : quiet (ret a).
Proof. intros w. split; [done|]. exists []. by rewrite app_nil_r. Qed.

Lemma quiet_raise {A} (e : exn) : quiet (raise (A := A) e).
Proof. intros w. split; [done|]. exists []. by rewrite app_nil_r. Qed.

Lemma quiet_out_of_fuel {A} : quiet (out_of_fuel (A := A)).
Proof. intros w. split; [done|]. exists []. by rewrite app_nil_r. Qed.

Lemma quiet_bind {A B} (m : M A) (k : A → M B) :
  quiet m → (∀ a, quiet (k a)) → quiet (bind m k).
Proof.
  intros Hm Hk w. unfold bind.
  destruct (Hm w) as (Hman & evs & Ht & Hc).
  destruct (m w) as [[a| e |] w1]; cbn in *.
  - destruct (Hk a w1) as (Hman' & evs' & Ht' & Hc').
    split; [congruence|]. exists (evs ++ evs')%list.
    rewrite Ht', Ht, count_app, Hc, Hc'. by rewrite <- app_assoc.
  - split; [done|]. by exists evs.
  - split; [done|]. by exists evs.
Qed.

Lemma quiet_emit (e : event) : is_write e = false → quiet (emit e).
Proof.
  intros He w. split; [done|]. exists [e]. split; [done|].
  by rewrite count_cons, He.
Qed.

Lemma quiet_print (line : string) : quiet (print line).
Proof. by apply quiet_emit. Qed.

Lemma quiet_time_time : quiet time_time.
Proof. intros w. split; [done|]. exists []. by rewrite app_nil_r. Qed.

Lemma quiet_time_sleep (secs : Z) : quiet (time_sleep secs).
Proof.
  unfold time_sleep. destruct (secs <? 0); [apply quiet_raise|].
  intros w. split; [done|]. by exists [EvSleep secs].
Qed.

Lemma quiet_http (server : nat → reply) (request : event) :
  is_write request = false → quiet (http server request).
Proof.
  intros He w. unfold http.
  destruct (body (server (requests_sent w))); cbn;
    (split; [done|]; exists [request]; split; [done|];
     by rewrite count_cons, He).
Qed.

End Quiet.

Section Run.

Variable ACCESS_TOKEN : string.
Variable POLL_INTERVAL : Z.
Variable POLL_TIMEOUT : Z.
Variable IST_localize : option (datetime → option datetime).
Variable server : nat → reply.

Implicit Types (w : World) (fuel : nat) (r : row) (rows : list row).

Local Abbreviation publish_row' :=
  (publish_row ACCESS_TOKEN POLL_INTERVAL POLL_TIMEOUT server).
Local Abbreviation process_row' :=
  (process_row ACCESS_TOKEN POLL_INTERVAL POLL_TIMEOUT IST_localize server).
Local Abbreviation main_loop' :=
  (main_loop ACCESS_TOKEN POLL_INTERVAL POLL_TIMEOUT IST_localize server).
Local Abbreviation main' :=
  (main ACCESS_TOKEN POLL_INTERVAL POLL_TIMEOUT IST_localize server).

Lemma quiet_poll_loop fuel cid start :
  quiet (poll_loop POLL_INTERVAL POLL_TIMEOUT server fuel cid start).
Proof.
  induction fuel as [|fuel IH]; cbn [poll_loop]; [apply quiet_out_of_fuel|].
  apply quiet_bind; [by apply quiet_http|]. intros data.
  destruct (bool_decide _); [apply quiet_ret|].
  destruct (bool_decide _); [apply quiet_raise|].
  apply quiet_bind; [apply quiet_time_time|]. intros t.
  destruct (POLL_TIMEOUT <? _); [apply quiet_raise|].
  apply quiet_bind; [apply quiet_time_sleep|]. by intros _.
Qed.

Lemma quiet_publish_row fuel r : quiet (publish_row' fuel r).
Proof.
  unfold publish_row.
  apply quiet_bind; [apply quiet_print|]. intros _.
  apply quiet_bind.
  { unfold create_reel_container.
    apply quiet_bind; [by apply quiet_http|]. intros data.
    destruct (data !! "id"); [apply quiet_ret|apply quiet_raise]. }
  intros cid.
  apply quiet_bind; [apply quiet_print|]. intros _.
  apply quiet_bind; [apply quiet_print|]. intros _.
  apply quiet_bind.
  { unfold poll_container_ready.
    apply quiet_bind; [apply quiet_time_time|]. intros start.
    apply quiet_poll_loop. }
  intros _.
  apply quiet_bind; [apply quiet_print|]. intros _.
  apply quiet_bind.
  { unfold publish_container.
    apply quiet_bind; [by apply quiet_http|]. intros data. apply quiet_ret. }
  intros media_id.
  apply quiet_bind; [apply quiet_print|]. intros _. apply quiet_ret.
Qed.

Lemma quiet_process_row fuel now_ist r : quiet (process_row' fuel now_ist r).
Proof.
  unfold process_row.
  destruct (due_gate IST_localize now_ist r) as [[line|]|].
  - apply quiet_bind; [apply quiet_print|]. intros _. apply quiet_ret.
  - apply quiet_ret.
  - apply quiet_bind; [apply quiet_publish_row|]. intros r'. apply quiet_ret.
Qed.

Lemma quiet_main_loop fuel now_ist rows : quiet (main_loop' fuel now_ist rows).
Proof.
  induction rows as [|r rows IH]; cbn [main_loop]; [apply quiet_ret|].
  apply quiet_bind; [apply quiet_process_row|]. intros [r' c].
  apply quiet_bind; [exact IH|]. intros [rest' changed]. apply quiet_ret.
Qed.

(** *** The three cases of the loop body *)

Lemma process_row_skip fuel now_ist r w :
  due_gate IST_localize now_ist r = NotDue None →
  process_row' fuel now_ist r w = (Ret (r, false), w).
Proof. intros E. unfold process_row. by rewrite E. Qed.

Lemma process_row_warn fuel now_ist r w line :
  due_gate IST_localize now_ist r = NotDue (Some line) →
  process_row' fuel now_ist r w = (Ret (r, false), logged (EvPrint line) w).
Proof. intros E. unfold process_row. by rewrite E. Qed.

Lemma process_row_due fuel now_ist r w :
  due_gate IST_localize now_ist r = IsDue →
  process_row' fuel now_ist r w
  = match publish_row' fuel r w with
    | (Ret r', w') => (Ret (r', true), w')
    | (Raise e, w') => (Raise e, w')
    | (OutOfFuel, w') => (OutOfFuel, w')
    end.
Proof. intros E. unfold process_row. rewrite E. reflexivity. Qed.

(** [publish_row] returns the row with [posted] set, or does not return. *)
Lemma publish_row_returns fuel r w r' w' :
  publish_row' fuel r w = (Ret r', w') → r' = <["posted" := "true"]> r.
Proof.
  unfold publish_row, bind, print, emit.
  destruct (create_reel_container _ _ _ _ _ _ _) as [[cid| |] w1]; [|done..].
  destruct (poll_container_ready _ _ _ _ _ _) as [[b| |] w2]; [|done..].
  destruct (publish_container _ _ _) as [[media_id| |] w3]; [|done..].
  unfold ret. by intros [= <- _].
Qed.

Lemma process_row_step fuel now_ist r w r' c w' :
  process_row' fuel now_ist r w = (Ret (r', c), w') →
  row_step IST_localize now_ist r r' c.
Proof.
  destruct (due_gate IST_localize now_ist r) as [[line|]|] eqn:E.
  - rewrite (process_row_warn _ _ _ _ _ E). intros [= <- <- _].
    left. by rewrite E.
  - rewrite (process_row_skip _ _ _ _ E). intros [= <- <- _].
    left. by rewrite E.
  - rewrite (process_row_due _ _ _ _ E).
    destruct (publish_row' fuel r w) as [[r''| |] w''] eqn:Ep; [|done..].
    intros [= <- <- <-]. right.
    by rewrite (publish_row_returns _ _ _ _ _ Ep).
Qed.

(** *** The loop *)

Lemma main_loop_cons fuel now_ist r rows w :
  main_loop' fuel now_ist (r :: rows) w
  = match process_row' fuel now_ist r w with
    | (Ret (r', c), w1) =>
        match main_loop' fuel now_ist rows w1 with
        | (Ret (rest', changed), w2) => (Ret (r' :: rest', c || changed), w2)
        | (Raise e, w2) => (Raise e, w2)
        | (OutOfFuel, w2) => (OutOfFuel, w2)
        end
    | (Raise e, w1) => (Raise e, w1)
    | (OutOfFuel, w1) => (OutOfFuel, w1)
    end.
Proof.
  cbn [main_loop]. unfold bind.
  destruct (process_row' fuel now_ist r w) as [[[r' c]| |] w1]; [|done..].
  by destruct (main_loop' fuel now_ist rows w1) as [[[rest' changed]| |] w2].
Qed.

Lemma main_loop_steps fuel now_ist rows : ∀ w rows' changed w',
  main_loop' fuel now_ist rows w = (Ret (rows', changed), w') →
  Forall2 (λ r r', ∃ c, row_step IST_localize now_ist r r' c) rows rows'
  ∧ (changed = false → rows' = rows).
Proof.
  induction rows as [|r rows IH]; intros w rows' changed w'.
  - cbn. intros [= <- <- _]. by split; [constructor|].
  - rewrite main_loop_cons.
    destruct (process_row' fuel now_ist r w) as [[[r' c]| |] w1] eqn:Er;
      [|done..].
    destruct (main_loop' fuel now_ist rows w1) as [[[rest' ch]| |] w2] eqn:El;
      [|done..].
    intros [= <- <- <-].
    apply process_row_step in Er.
    destruct (IH _ _ _ _ El) as [HF Hsame]. split.
    + constructor; [by exists c|done].
    + intros [-> ->]%orb_false_iff. rewrite Hsame by done.
      destruct Er as [(_ & -> & _)|(_ & _ & ?)]; [done|discriminate].
Qed.

(** When the loop has come to its end, no row it leaves is due. *)
Lemma main_loop_leaves_nothing_due fuel now_ist rows w rows' changed w' :
  main_loop' fuel now_ist rows w = (Ret (rows', changed), w') →
  Forall (λ r', due_gate IST_localize now_ist r' ≠ IsDue) rows'.
Proof.
  intros [HF _]%main_loop_steps.
  induction HF as [|r r' rows rows' (c & Hstep) _ IH]; constructor; [|done].
  destruct Hstep as [(Hnd & -> & _)|(_ & -> & _)]; [done|].
  by rewrite due_gate_flipped.
Qed.

(** A loop over rows none of which is due only prints warnings. *)
Lemma main_loop_nothing_due fuel now_ist rows : ∀ w,
  Forall (λ r, due_gate IST_localize now_ist r ≠ IsDue) rows →
  ∃ w' evs, main_loop' fuel now_ist rows w = (Ret (rows, false), w')
            ∧ manifest w' = manifest w
            ∧ trace w' = (trace w ++ evs)%list
            ∧ Forall (λ e, is_print e = true) evs.
Proof.
  induction rows as [|r rows IH]; intros w HF.
  - exists w, []. cbn. by rewrite app_nil_r.
  - apply Forall_cons in HF as [Hr HF]. rewrite main_loop_cons.
    destruct (due_gate IST_localize now_ist r) as [[line|]|] eqn:E; [| |done].
    + rewrite (process_row_warn _ _ _ _ _ E).
      destruct (IH (logged (EvPrint line) w) HF) as (w' & evs & -> & Hm & Ht & He).
      exists w', (EvPrint line :: evs). split; [done|]. split; [done|].
      split; [|by constructor].
      rewrite Ht. cbn. by rewrite <- app_assoc.
    + rewrite (process_row_skip _ _ _ _ E).
      destruct (IH w HF) as (w' & evs & -> & Hm & Ht & He).
      by exists w', evs.
Qed.

Lemma main_loop_app fuel now_ist rows1 : ∀ rows2 w,
  main_loop' fuel now_ist (rows1 ++ rows2) w
  = match main_loop' fuel now_ist rows1 w with
    | (Ret (rows1', c1), w1) =>
        match main_loop' fuel now_ist rows2 w1 with
        | (Ret (rows2', c2), w2) => (Ret ((rows1' ++ rows2')%list, c1 || c2), w2)
        | (Raise e, w2) => (Raise e, w2)
        | (OutOfFuel, w2) => (OutOfFuel, w2)
        end
    | (Raise e, w1) => (Raise e, w1)
    | (OutOfFuel, w1) => (OutOfFuel, w1)
    end.
Proof.
  induction rows1 as [|r rows1 IH]; intros rows2 w.
  - cbn [app main_loop ret].
    by destruct (main_loop' fuel now_ist rows2 w) as [[[rows2' c2]| |] w2].
  - rewrite <- app_comm_cons, !main_loop_cons.
    destruct (process_row' fuel now_ist r w) as [[[r' c]| |] w1]; [|done..].
    rewrite IH.
    destruct (main_loop' fuel now_ist rows1 w1) as [[[rows1' c1]| |] w2];
      [|done..].
    destruct (main_loop' fuel now_ist rows2 w2) as [[[rows2' c2]| |] w3];
      [|done..].
    by rewrite orb_assoc.
Qed.

Lemma main_loop_length fuel now_ist rows w rows' changed w' :
  main_loop' fuel now_ist rows w = (Ret (rows', changed), w') →
  length rows' = length rows.
Proof. intros [HF _]%main_loop_steps. symmetry. by eapply Forall2_length. Qed.

(** *** [main] *)

Lemma main_unfold fuel now w rows :
  manifest w = Some rows →
  main' fuel now w
  = match main_loop' fuel (replace_second0 now) rows w with
    | (Ret (rows', true), w') =>
        (Ret tt, logged (EvPrint "[OK] Manifest updated.")
                   (mkWorld (clock w') (requests_sent w')
                      (trace w' ++ [EvWrite rows']) (Some rows')))
    | (Ret (rows', false), w') =>
        (Ret tt, logged (EvPrint "[INFO] Nothing due to publish.") w')
    | (Raise e, w') => (Raise e, w')
    | (OutOfFuel, w') => (OutOfFuel, w')
    end.
Proof.
  intros E. unfold main, bind, read_manifest. rewrite E.
  destruct (main_loop' fuel (replace_second0 now) rows w)
    as [[[rows' [|]]| |] w']; reflexivity.
Qed.

Lemma main_unreadable fuel now w :
  manifest w = None →
  main' fuel now w = (Raise (OSError "cannot open the manifest"), w).
Proof. intros E. unfold main, bind, read_manifest. by rewrite E. Qed.

End Run.

(* ===================================================================== *)
(** ** Claims about a run *)
(* ===================================================================== *)

(** C4.  A row whose [posted] cell parses as true is left alone by a run:
    the loop body returns it unchanged without touching the world (no
    request, no line printed); the run over the manifest is the run over
    the manifest without the row, with the row put back at its place; and
    whatever the outcome of [main], the manifest holds the row, as it was,
    at its place. *)
Theorem posted_row_is_left_alone
    (tok : string) (I T : Z) (loc : option (datetime → option datetime))
    (server : nat → reply) (fuel : nat) (now : datetime)
    (r : row) (before after : list row) (w : World) :
  parse_bool (row_get r "posted" "false") = true →
  manifest w = Some (before ++ r :: after)%list →
  process_row tok I T loc server fuel (replace_second0 now) r w
  = (Ret (r, false), w)
  ∧ main_loop tok I T loc server fuel (replace_second0 now)
      (before ++ r :: after)%list w
    = (insert_row (length before) r
         (main_loop tok I T loc server fuel (replace_second0 now)
            (before ++ after)%list w).1,
       (main_loop tok I T loc server fuel (replace_second0 now)
          (before ++ after)%list w).2)
  ∧ ∃ rows', manifest (main tok I T loc server fuel now w).2 = Some rows'
             ∧ rows' !! length before = Some r.
Proof.
  intros Hposted Hman.
  assert (Hgate : due_gate loc (replace_second0 now) r = NotDue None)
    by (by apply due_gate_posted).
  split; [by apply process_row_skip|]. split.
  - rewrite !main_loop_app.
    destruct (main_loop tok I T loc server fuel (replace_second0 now) before w)
      as [[[before' c1]| |] w1] eqn:E1; [|done..].
    rewrite main_loop_cons, (process_row_skip _ _ _ _ _ _ _ _ _ Hgate).
    destruct (main_loop tok I T loc server fuel (replace_second0 now) after w1)
      as [[[after' c2]| |] w2]; [|done..].
    cbn [fst snd insert_row orb].
    apply main_loop_length in E1. rewrite <- E1.
    by rewrite take_app_length, drop_app_length.
  - rewrite (main_unfold _ _ _ _ _ _ _ _ _ Hman).
    assert (Hr : (before ++ r :: after)%list !! length before = Some r)
      by apply list_lookup_middle, eq_refl.
    destruct (main_loop tok I T loc server fuel (replace_second0 now)
                (before ++ r :: after)%list w)
      as [[[rows' changed]| |] w'] eqn:E.
    + assert (Hrow : rows' !! length before = Some r).
      { destruct (main_loop_steps _ _ _ _ _ _ _ _ _ _ _ _ E) as [HF _].
        destruct (Forall2_lookup_l _ _ _ _ _ HF Hr)
          as (r' & Hr' & c & [(_ & -> & _)|(Hdue & _)]); [done|].
        by rewrite Hgate in Hdue. }
      destruct changed; cbn.
      * by exists rows'.
      * exists rows'. split; [|done].
        destruct (main_loop_steps _ _ _ _ _ _ _ _ _ _ _ _ E) as [_ Hsame].
        rewrite (Hsame eq_refl).
        destruct (quiet_main_loop tok I T loc server fuel (replace_second0 now)
                    (before ++ r :: after)%list w) as [Hm _].
        rewrite E in Hm. cbn in Hm. congruence.
    + exists (before ++ r :: after)%list. split; [|done]. cbn.
      destruct (quiet_main_loop tok I T loc server fuel (replace_second0 now)
                  (before ++ r :: after)%list w) as [Hm _].
      rewrite E in Hm. cbn in Hm. congruence.
    + exists (before ++ r :: after)%list. split; [|done]. cbn.
      destruct (quiet_main_loop tok I T loc server fuel (replace_second0 now)
                  (before ++ r :: after)%list w) as [Hm _].
      rewrite E in Hm. cbn in Hm. congruence.
Qed.

(** C5.  After a run that came to its end, a second run on the manifest
    as the first left it, at a time when no row is newly due (due now,
    not due at the time of the first run), leaves [changed] false: its
    loop returns the rows as they are, [main] prints that nothing is due,
    sends no request and does not write the manifest. *)
Theorem second_run_writes_nothing
    (tok : string) (I T : Z) (loc : option (datetime → option datetime))
    (server : nat → reply) (fuel1 fuel2 : nat) (now1 now2 : datetime)
    (w w1 : World) (rows : list row) :
  main tok I T loc server fuel1 now1 w = (Ret tt, w1) →
  manifest w1 = Some rows →
  forallb (λ r, negb (newly_due loc now1 now2 r)) rows = true →
  ∃ w2,
    main_loop tok I T loc server fuel2 (replace_second0 now2) rows w1
    = (Ret (rows, false), w2)
    ∧ main tok I T loc server fuel2 now2 w1
      = (Ret tt, logged (EvPrint "[INFO] Nothing due to publish.") w2)
    ∧ manifest (logged (EvPrint "[INFO] Nothing due to publish.") w2)
      = manifest w1
    ∧ count is_write
        (events_since w1 (logged (EvPrint "[INFO] Nothing due to publish.") w2))
      = 0%nat
    ∧ count is_remote
        (events_since w1 (logged (EvPrint "[INFO] Nothing due to publish.") w2))
      = 0%nat.
Proof.
  intros Hrun Hman Hnew.
  (* no row the first run left is due at the time of the first run *)
  assert (Hnd1 : Forall (λ r, due_gate loc (replace_second0 now1) r ≠ IsDue) rows).
  { destruct (manifest w) as [rows0|] eqn:Hman0.
    2:{ by rewrite (main_unreadable _ _ _ _ _ _ _ _ Hman0) in Hrun. }
    rewrite (main_unfold _ _ _ _ _ _ _ _ _ Hman0) in Hrun.
    destruct (main_loop tok I T loc server fuel1 (replace_second0 now1) rows0 w)
      as [[[rows' changed]| |] w'] eqn:E; [|done..].
    pose proof (main_loop_leaves_nothing_due _ _ _ _ _ _ _ _ _ _ _ _ E) as Hnd.
    destruct changed.
    - injection Hrun as <-. cbn in Hman. by injection Hman as <-.
    - injection Hrun as <-. cbn in Hman.
      destruct (quiet_main_loop tok I T loc server fuel1 (replace_second0 now1)
                  rows0 w) as [Hm _].
      rewrite E in Hm. cbn in Hm.
      assert (rows = rows') as ->; [|done].
      destruct (main_loop_steps _ _ _ _ _ _ _ _ _ _ _ _ E) as [_ Hsame].
      rewrite (Hsame eq_refl). congruence. }
  (* so, nothing being newly due, no row is due at the time of the second *)
  assert (Hnd2 : Forall (λ r, due_gate loc (replace_second0 now2) r ≠ IsDue) rows).
  { rewrite forallb_forall in Hnew. rewrite Forall_forall in Hnd1.
    apply Forall_forall. intros r Hr Hdue.
    specialize (Hnew r (proj1 (list_elem_of_In _ _) Hr)).
    specialize (Hnd1 r Hr). unfold newly_due in Hnew. rewrite Hdue in Hnew.
    cbn in Hnew. destruct (due_gate loc (replace_second0 now1) r); [|done].
    discriminate Hnew. }
  destruct (main_loop_nothing_due tok I T loc server fuel2
              (replace_second0 now2) rows w1 Hnd2)
    as (w2 & evs & E & Hm & Ht & Hev).
  exists w2. split; [exact E|]. split.
  { by rewrite (main_unfold _ _ _ _ _ _ _ _ _ Hman), E. }
  split; [done|].
  rewrite (events_since_app w1 _
             (evs ++ [EvPrint "[INFO] Nothing due to publish."])).
  2:{ cbn. rewrite Ht. by rewrite <- app_assoc. }
  rewrite !count_app, !count_cons, !count_nil. cbn.
  split.
  - rewrite count_none; [done|].
    eapply Forall_impl; [exact Hev|]. by intros [].
  - rewrite count_none; [done|].
    eapply Forall_impl; [exact Hev|]. by intros [].
Qed.

(** C1, as the code has it.  [main] catches nothing around the remote
    steps.  When the lifecycle of a due row (create, poll, publish) raises,
    the exception leaves [main] at that row: the world [main] ends in is
    the world at the failure, so that no later row is processed, nothing is
    printed about the failure, and the manifest is not written (the rows
    published earlier in the run stay unmarked in the file).  A manifest
    that cannot be read makes [main] raise before anything is done. *)
Theorem remote_failure_aborts_the_run
    (tok : string) (I T : Z) (loc : option (datetime → option datetime))
    (server : nat → reply) (fuel : nat) (now : datetime)
    (before : list row) (r : row) (after : list row) (w : World)
    (before' : list row) (changed : bool) (w1 : World)
    (e : exn) (w2 : World) (wx : World) :
  manifest w = Some (before ++ r :: after)%list →
  main_loop tok I T loc server fuel (replace_second0 now) before w
  = (Ret (before', changed), w1) →
  due_gate loc (replace_second0 now) r = IsDue →
  publish_row tok I T server fuel r w1 = (Raise e, w2) →
  manifest wx = None →
  main tok I T loc server fuel now w = (Raise e, w2)
  ∧ manifest w2 = manifest w
  ∧ count is_write (events_since w w2) = 0%nat
  ∧ main tok I T loc server fuel now wx
    = (Raise (OSError "cannot open the manifest"), wx).
Proof.
  intros Hman Hbefore Hdue Hfail Hx.
  assert (Hloop : main_loop tok I T loc server fuel (replace_second0 now)
                    (before ++ r :: after)%list w = (Raise e, w2)).
  { rewrite main_loop_app, Hbefore, main_loop_cons.
    by rewrite (process_row_due _ _ _ _ _ _ _ _ _ Hdue), Hfail. }
  split; [by rewrite (main_unfold _ _ _ _ _ _ _ _ _ Hman), Hloop|].
  destruct (quiet_main_loop tok I T loc server fuel (replace_second0 now)
              (before ++ r :: after)%list w) as (Hm & evs & Ht & Hc).
  rewrite Hloop in Hm, Ht. cbn in Hm, Ht.
  split; [done|]. split; [by rewrite (events_since_app _ _ _ Ht)|].
  by apply main_unreadable.
Qed.

(* ===================================================================== *)
(** ** The statements at sample inputs *)
(* ===================================================================== *)

Section Samples.

Import Demo.

Local Abbreviation two_due := (world [row_a; row_b]).

(** Two due rows, a platform that refuses every request: the create
    request of the first row raises out of [main]; the second row is
    never looked at and nothing is printed about the failure. *)
Lemma first_failure_stops_the_run :
  due_gate None (replace_second0 noon) row_a = IsDue
  ∧ due_gate None (replace_second0 noon) row_b = IsDue
  ∧ (main "tok" 8 180 None server_down 5 noon two_due).1
    = Raise RequestException
  ∧ trace (main "tok" 8 180 None server_down 5 noon two_due).2
    = [EvPrint "[INFO] Creating container for due reel: https://cdn/a.mp4";
       EvCreate (row_payload "tok" row_a)]
  ∧ manifest (main "tok" 8 180 None server_down 5 noon two_due).2
    = Some [row_a; row_b].
Proof. repeat split; vm_compute; reflexivity. Qed.

(** The first row is published, the create request of the second fails:
    [main] raises, and the manifest still has the first row unmarked. *)
Lemma remote_failure_aborts_the_run_witness :
  main "tok" 8 180 None server_one_then_down 5 noon two_due
  = (Raise RequestException,
     (publish_row "tok" 8 180 server_one_then_down 5 row_b
        (main_loop "tok" 8 180 None server_one_then_down 5
           (replace_second0 noon) [row_a] two_due).2).2)
  ∧ manifest
      (publish_row "tok" 8 180 server_one_then_down 5 row_b
         (main_loop "tok" 8 180 None server_one_then_down 5
            (replace_second0 noon) [row_a] two_due).2).2
    = Some [row_a; row_b]
  ∧ main "tok" 8 180 None server_one_then_down 5 noon world_no_manifest
    = (Raise (OSError "cannot open the manifest"), world_no_manifest).
Proof.
  destruct (remote_failure_aborts_the_run "tok" 8 180 None
              server_one_then_down 5 noon
              [row_a] row_b [] two_due
              [<["posted" := "true"]> row_a] true
              (main_loop "tok" 8 180 None server_one_then_down 5
                 (replace_second0 noon) [row_a] two_due).2
              RequestException
              (publish_row "tok" 8 180 server_one_then_down 5 row_b
                 (main_loop "tok" 8 180 None server_one_then_down 5
                    (replace_second0 noon) [row_a] two_due).2).2
              world_no_manifest) as (H1 & H2 & _ & H4).
  - reflexivity.
  - vm_compute. reflexivity.
  - vm_compute. reflexivity.
  - vm_compute. reflexivity.
  - reflexivity.
  - split; [exact H1|]. split; [exact H2 | exact H4].
Defined.

(** A container that stays IN_PROGRESS, each answer taking one second:
    the fourth status query is the one after which the poll gives up. *)
Lemma stuck_container_is_polled_four_times :
  (poll_container_ready 8 20 server_stuck 10 "c1" (world [])).1
  = Raise (TimeoutError "Container c1 not ready within timeout.")
  ∧ trace (poll_container_ready 8 20 server_stuck 10 "c1" (world [])).2
    = [EvStatus "c1"; EvSleep 8; EvStatus "c1"; EvSleep 8;
       EvStatus "c1"; EvSleep 8; EvStatus "c1"]
  ∧ count is_status
      (events_since (world [])
         (poll_container_ready 8 20 server_stuck 10 "c1" (world [])).2)
    = 4%nat
  ∧ ¬ (count is_status
         (events_since (world [])
            (poll_container_ready 8 20 server_stuck 10 "c1" (world [])).2)
       ≤ 3)%nat.
Proof.
  split; [vm_compute; reflexivity|]. split; [vm_compute; reflexivity|].
  assert (E : count is_status
                (events_since (world [])
                   (poll_container_ready 8 20 server_stuck 10 "c1"
                      (world [])).2) = 4%nat)
    by (vm_compute; reflexivity).
  split; [exact E|]. rewrite E. lia.
Qed.

Lemma server_stuck_in_progress (n : nat) :
  answers_status (server_stuck n) (Some "IN_PROGRESS").
Proof. eexists. split; reflexivity. Defined.

Lemma poll_gives_up_within_four_queries_witness :
  ∃ w', publish_row "tok" 8 20 server_stuck 10 row_a (world [row_a])
        = (Raise (TimeoutError "Container c1 not ready within timeout."), w')
        ∧ (1 ≤ count is_status (events_since (world [row_a]) w') ≤ 4)%nat
        ∧ count is_publish (events_since (world [row_a]) w') = 0%nat.
Proof.
  refine (proj2 (poll_gives_up_within_four_queries "tok" server_stuck 10 "c1"
                   (world []) row_a (world [row_a]) _ _ _ _)).
  - lia.
  - intros n _. apply server_stuck_in_progress.
  - eexists. split; reflexivity.
  - intros n _. apply server_stuck_in_progress.
Defined.


Lemma posted_row_is_left_alone_witness :
  process_row "tok" 8 180 None server_ready 5 (replace_second0 noon)
    row_posted (world [row_a; row_posted; row_later])
  = (Ret (row_posted, false), world [row_a; row_posted; row_later])
  ∧ ∃ rows', manifest (main "tok" 8 180 None server_ready 5 noon
                         (world [row_a; row_posted; row_later])).2
             = Some rows'
             ∧ rows' !! 1%nat = Some row_posted.
Proof.
  destruct (posted_row_is_left_alone "tok" 8 180 None server_ready 5 noon
              row_posted [row_a] [row_later]
              (world [row_a; row_posted; row_later])) as (H1 & _ & H3).
  - vm_compute. reflexivity.
  - reflexivity.
  - split; [exact H1 | exact H3].
Defined.

Local Abbreviation first_run :=
  (main "tok" 8 180 None server_ready 5 noon
     (world [row_a; row_posted; row_later])).

Lemma second_run_writes_nothing_witness :
  ∃ w2, main "tok" 8 180 None server_ready 5 one_pm first_run.2
        = (Ret tt, logged (EvPrint "[INFO] Nothing due to publish.") w2).
Proof.
  destruct (second_run_writes_nothing "tok" 8 180 None server_ready 5 5
              noon one_pm (world [row_a; row_posted; row_later])
              first_run.2
              [<["posted" := "true"]> row_a; row_posted; row_later])
    as (w2 & _ & H & _).
  - vm_compute. reflexivity.
  - vm_compute. reflexivity.
  - vm_compute. reflexivity.
  - exists w2. exact H.
Defined.

Lemma poll_three_queries_then_one_publish_witness :
  ∃ w2, poll_container_ready 8 180 server_slow 3 "c1"
          (created "tok" server_slow row_a "c1" (world [row_a]))
        = (Ret true, w2)
        ∧ events_since (created "tok" server_slow row_a "c1" (world [row_a]))
            w2
          = [EvStatus "c1"; EvSleep 8; EvStatus "c1"; EvSleep 8;
             EvStatus "c1"].
Proof.
  destruct (poll_three_queries_then_one_publish "tok" 180 server_slow 3 "c1"
              row_a (world [row_a]))
    as (w2 & res & w' & tail & H1 & H2 & _).
  - lia.
  - lia.
  - eexists. split; reflexivity.
  - eexists. split; reflexivity.
  - eexists. split; reflexivity.
  - eexists. split; reflexivity.
  - vm_compute. discriminate.
  - exists w2. split; [exact H1 | exact H2].
Defined.

Lemma poll_fails_at_once_on_error_or_expired_witness :
  ∃ w', publish_row "tok" 8 180 server_expired 1 row_a (world [row_a])
        = (Raise (RuntimeError "Container c1 failed with status: EXPIRED"), w')
        ∧ count is_status (events_since (world [row_a]) w') = 1%nat
        ∧ count is_publish (events_since (world [row_a]) w') = 0%nat.
Proof.
  refine (proj2 (poll_fails_at_once_on_error_or_expired "tok" 8 180
                   server_expired 0 "c1" "EXPIRED"
                   (created "tok" server_expired row_a "c1" (world [row_a]))
                   row_a (world [row_a]) _ _ _ _)).
  - right. reflexivity.
  - eexists. split; reflexivity.
  - eexists. split; reflexivity.
  - eexists. split; reflexivity.
Defined.


Lemma legacy_suffix_never_parses_witness :
  process_row "tok" 8 180 None server_ready 5 (replace_second0 noon)
    row_legacy (world [row_legacy])
  = (Ret (row_legacy, false),
     logged (EvPrint "[WARN] Bad time format: 2024-03-09 10:00:00Z-legacy")
       (world [row_legacy])).
Proof.
  destruct (legacy_suffix_never_parses None "tok" 8 180 server_ready 5
              (replace_second0 noon) row_legacy (world [row_legacy]))
    as (_ & _ & _ & H).
  - left. vm_compute. reflexivity.
  - apply H. vm_compute. reflexivity.
Defined.

(** A budget that is spent before the poll starts does not keep a
    finished container from being reported ready. *)
Lemma poll_queries_before_timeout_check_witness :
  poll_container_ready 8 (-5) server_ready 1 "c1" (world [])
  = (Ret true, answered server_ready (EvStatus "c1") (world [])).
Proof.
  apply (proj2 (poll_queries_before_timeout_check 8 (-5) server_ready 0 "c1"
                  (world []))).
  eexists. split; reflexivity.
Defined.

End Samples.

(* ===================================================================== *)
(** ** [parse_bool] *)
(* ===================================================================== *)

Module ParseBoolFacts.
Import PyStr PyStrFacts.

Lemma lstrip_all_space (p : string) : all_space p = true → lstrip p = "".
Proof.
  induction p as [|c p IH]; [done|]. cbn [all_space lstrip].
  intros [Hc Hp]%andb_true_iff. rewrite Hc. by apply IH.
Qed.

Lemma rstrip_all_space (p : string) : all_space p = true → rstrip p = "".
Proof.
  induction p as [|c p IH]; [done|]. cbn [all_space rstrip].
  intros [Hc Hp]%andb_true_iff. by rewrite (IH Hp), Hc.
Qed.

Lemma lstrip_pad_left (p s : string) :
  all_space p = true → lstrip (p ++ s) = lstrip s.
Proof.
  induction p as [|c p IH]; [done|]. rewrite append_cons.
  cbn [all_space lstrip]. intros [Hc Hp]%andb_true_iff.
  rewrite Hc. by apply IH.
Qed.

Lemma rstrip_pad_right (s p : string) :
  all_space p = true → rstrip (s ++ p) = rstrip s.
Proof.
  intros Hp. induction s as [|c s IH].
  - rewrite append_nil. by apply rstrip_all_space.
  - rewrite append_cons. cbn [rstrip]. by rewrite IH.
Qed.

Lemma strip_pad_right (s p : string) :
  all_space p = true → strip (s ++ p) = strip s.
Proof.
  intros Hp. unfold strip. induction s as [|c s IH].
  - rewrite append_nil. by rewrite (lstrip_all_space p Hp).
  - rewrite append_cons. cbn [lstrip]. destruct (isspace c); [exact IH|].
    rewrite <- append_cons. by apply rstrip_pad_right.
Qed.

Lemma strip_pad (p1 s p2 : string) :
  all_space p1 = true → all_space p2 = true →
  strip (p1 ++ s ++ p2) = strip s.
Proof.
  intros H1 H2. unfold strip at 1. rewrite (lstrip_pad_left _ _ H1).
  by apply strip_pad_right.
Qed.

Lemma isspace_lower_char (c : ascii) : isspace (lower_char c) = isspace c.
Proof. by destruct c as [[] [] [] [] [] [] [] []]. Qed.

Lemma lstrip_lower (s : string) : lstrip (lower s) = lower (lstrip s).
Proof.
  induction s as [|c s IH]; [done|]. cbn [lower lstrip].
  rewrite isspace_lower_char. by destruct (isspace c).
Qed.

Lemma rstrip_lower (s : string) : rstrip (lower s) = lower (rstrip s).
Proof.
  induction s as [|c s IH]; [done|]. cbn [lower rstrip].
  rewrite IH, isspace_lower_char.
  destruct (rstrip s); cbn [lower]; [|done]. by destruct (isspace c).
Qed.

Lemma strip_lower (s : string) : strip (lower s) = lower (strip s).
Proof. unfold strip. by rewrite lstrip_lower, rstrip_lower. Qed.

End ParseBoolFacts.

(** X1.  [parse_bool] looks neither at the white space around a text nor
    at the case of its letters: a text padded with white space on both
    sides is read as any text that has the same lower-case form. *)
Theorem parse_bool_ignores_padding_and_case (p1 s p2 s' : string) :
  all_space p1 = true → all_space p2 = true →
  PyStr.lower s = PyStr.lower s' →
  parse_bool (p1 ++ s ++ p2) = parse_bool s'.
Proof.
  intros H1 H2 Hl. unfold parse_bool.
  rewrite (ParseBoolFacts.strip_pad _ _ _ H1 H2).
  by rewrite <- !ParseBoolFacts.strip_lower, Hl.
Qed.

(* ===================================================================== *)
(** ** The create request *)
(* ===================================================================== *)

Lemma strip_all_space (s : string) : all_space s = true → PyStr.strip s = "".
Proof.
  intros H. unfold PyStr.strip.
  by rewrite (ParseBoolFacts.lstrip_all_space s H).
Qed.

(** X2.  The form data sent for a row: the five fixed fields are always
    there, with the cells stripped; a row without a [caption] column sends
    an empty caption, a row without a [share_to_feed] column shares to the
    feed; [cover_url] is sent only when the cell is something else than
    white space; no other field is ever sent. *)
Theorem row_payload_fields (tok : string) (r : row) :
  row_payload tok r !! "media_type" = Some "REELS"
  ∧ row_payload tok r !! "access_token" = Some tok
  ∧ row_payload tok r !! "video_url"
    = Some (PyStr.strip (row_get r "video_url" ""))
  ∧ row_payload tok r !! "caption"
    = Some (PyStr.strip (row_get r "caption" ""))
  ∧ (r !! "caption" = None → row_payload tok r !! "caption" = Some "")
  ∧ row_payload tok r !! "share_to_feed"
    = Some (if parse_bool (row_get r "share_to_feed" "true")
            then "true" else "false")
  ∧ (r !! "share_to_feed" = None →
     row_payload tok r !! "share_to_feed" = Some "true")
  ∧ row_payload tok r !! "cover_url"
    = (if PyStr.truthy (PyStr.strip (row_get r "cover_url" ""))
       then Some (PyStr.strip (row_get r "cover_url" "")) else None)
  ∧ (all_space (row_get r "cover_url" "") = true →
     row_payload tok r !! "cover_url" = None)
  ∧ (∀ k, k ∉ payload_keys → row_payload tok r !! k = None).
Proof.
  unfold row_payload, create_payload.
  assert (Hcap : r !! "caption" = None →
                 PyStr.strip (row_get r "caption" "") = "")
    by (intros E; unfold row_get; by rewrite E).
  assert (Hsh : r !! "share_to_feed" = None →
                parse_bool (row_get r "share_to_feed" "true") = true)
    by (intros E; unfold row_get; by rewrite E).
  assert (Hcov : all_space (row_get r "cover_url" "") = true →
                 PyStr.truthy (PyStr.strip (row_get r "cover_url" "")) = false)
    by (intros E; by rewrite (strip_all_space _ E)).
  destruct (PyStr.truthy (PyStr.strip (row_get r "cover_url" ""))) eqn:Et;
    cbn zeta; rewrite ?Et.
  - repeat split; try (by simplify_map_eq).
    + intros E. rewrite (Hcap E). by simplify_map_eq.
    + intros E. rewrite (Hsh E). by simplify_map_eq.
    + intros E. by specialize (Hcov E).
    + intros k Hk. unfold payload_keys in Hk.
      rewrite !not_elem_of_cons in Hk. destruct Hk as (?&?&?&?&?&?&_).
      by simplify_map_eq.
  - repeat split; try (by simplify_map_eq).
    + intros E. rewrite (Hcap E). by simplify_map_eq.
    + intros E. rewrite (Hsh E). by simplify_map_eq.
    + intros k Hk. unfold payload_keys in Hk.
      rewrite !not_elem_of_cons in Hk. destruct Hk as (?&?&?&?&?&?&_).
      by simplify_map_eq.
Qed.

(* ===================================================================== *)
(** ** What a poll can end in *)
(* ===================================================================== *)

Section PollOutcome.

Variable POLL_INTERVAL : Z.
Variable POLL_TIMEOUT : Z.
Variable server : nat → reply.

(** Every way the loop can end, with what was last seen when it ended. *)
Lemma poll_loop_outcome (fuel : nat) (cid : string) (start : Z) :
  ∀ w res w',
  poll_loop POLL_INTERVAL POLL_TIMEOUT server fuel cid start w = (res, w') →
  match res with
  | Ret b =>
      b = true
      ∧ ∃ n, requests_sent w' = S n ∧ (requests_sent w ≤ n)%nat
             ∧ answers_status (server n) (Some "FINISHED")
  | Raise (TimeoutError m) =>
      m = "Container " ++ cid ++ " not ready within timeout."
      ∧ POLL_TIMEOUT < clock w' - start
  | Raise (RuntimeError m) =>
      ∃ n st, requests_sent w' = S n ∧ (requests_sent w ≤ n)%nat
              ∧ (st = "ERROR" ∨ st = "EXPIRED")
              ∧ answers_status (server n) (Some st)
              ∧ m = "Container " ++ cid ++ " failed with status: " ++ st
  | Raise RequestException =>
      ∃ n, requests_sent w' = S n ∧ (requests_sent w ≤ n)%nat
           ∧ body (server n) = None
  | Raise (ValueError _) => POLL_INTERVAL < 0
  | Raise (KeyError _) | Raise (OSError _) => False
  | OutOfFuel => True
  end.
Proof.
  induction fuel as [|fuel IH]; intros w res w'.
  - cbn. by intros [= <- _].
  - cbn [poll_loop]. unfold bind, http.
    destruct (body (server (requests_sent w))) as [data|] eqn:Eb.
    2:{ intros [= <- <-]. exists (requests_sent w). by cbn. }
    destruct (bool_decide (data !! "status_code" = Some "FINISHED")) eqn:Ef.
    { intros [= <- <-]. split; [done|]. exists (requests_sent w).
      apply bool_decide_eq_true in Ef. cbn. repeat split; [lia|].
      by exists data. }
    destruct (bool_decide (data !! "status_code"
                           ∈ [Some "ERROR"; Some "EXPIRED"])) eqn:Ee.
    { intros [= <- <-]. apply bool_decide_eq_true in Ee.
      rewrite !elem_of_cons, elem_of_nil in Ee.
      destruct Ee as [Ee|[Ee|[]]].
      - exists (requests_sent w), "ERROR". cbn. rewrite Ee.
        repeat split; [lia|by left|by exists data].
      - exists (requests_sent w), "EXPIRED". cbn. rewrite Ee.
        repeat split; [lia|by right|by exists data]. }
    unfold time_time, time_sleep. cbn beta iota.
    destruct (POLL_TIMEOUT <? _) eqn:Et.
    { intros [= <- <-]. split; [done|]. by apply Z.ltb_lt in Et. }
    destruct (POLL_INTERVAL <? 0) eqn:Ei.
    { intros [= <- <-]. by apply Z.ltb_lt in Ei. }
    intros E. apply IH in E. cbn [requests_sent slept answered] in E.
    destruct res as [b|[]|]; try done.
    + destruct E as (-> & n & ? & ? & ?). split; [done|].
      exists n. repeat split; [done|lia|done].
    + destruct E as (n & ? & ?). exists n. repeat split; [tauto|lia|tauto].
    + destruct E as (n & st & ? & ? & ?). exists n, st.
      repeat split; [done|lia|tauto..].
Qed.

(** However the answers come, the loop ends within the turns that the
    sleeps alone need to use up the budget, when the interval is positive. *)
Lemma poll_loop_ends (k : nat) : ∀ fuel cid start w,
  (S k ≤ fuel)%nat → 0 ≤ POLL_INTERVAL →
  POLL_TIMEOUT < clock w - start + POLL_INTERVAL * Z.of_nat k →
  (poll_loop POLL_INTERVAL POLL_TIMEOUT server fuel cid start w).1 ≠ OutOfFuel.
Proof.
  induction k as [|k IH]; intros fuel cid start w Hfuel HI Hk;
    (destruct fuel as [|fuel]; [lia|]);
    cbn [poll_loop]; unfold bind, http;
    (destruct (body (server (requests_sent w))) as [data|]; [|done]);
    (destruct (bool_decide _); [done|]);
    (destruct (bool_decide _); [done|]);
    unfold time_time, time_sleep; cbn beta iota;
    (destruct (POLL_TIMEOUT <? _) eqn:Et; [done|]);
    (destruct (POLL_INTERVAL <? 0) eqn:Ei; [done|]).
  - apply Z.ltb_ge in Et. cbn in Et. lia.
  - apply IH; [lia|done|]. cbn. apply Z.ltb_ge in Et. cbn in Et. lia.
Qed.

Lemma poll_returns_finished (fuel : nat) (cid : string) (w : World)
    (b : bool) (w' : World) :
  poll_container_ready POLL_INTERVAL POLL_TIMEOUT server fuel cid w
  = (Ret b, w') →
  b = true
  ∧ ∃ n, requests_sent w' = S n ∧ (requests_sent w ≤ n)%nat
         ∧ answers_status (server n) (Some "FINISHED").
Proof.
  rewrite poll_container_ready_unfold. intros E.
  exact (poll_loop_outcome fuel cid (clock w) w _ _ E).
Qed.

End PollOutcome.

(** X3.  [poll_container_ready] returns only [True], and only when the
    last status it was given is FINISHED. *)
Theorem poll_returns_only_on_finished
    (I T : Z) (server : nat → reply) (fuel : nat) (cid : string)
    (w : World) (b : bool) (w' : World) :
  poll_container_ready I T server fuel cid w = (Ret b, w') →
  b = true
  ∧ ∃ n, requests_sent w' = S n ∧ (requests_sent w ≤ n)%nat
         ∧ answers_status (server n) (Some "FINISHED").
Proof.
  apply poll_returns_finished.
Qed.

(** X4.  [poll_container_ready] never gives up early: when it raises the
    timeout error, more than [POLL_TIMEOUT] seconds have gone by since it
    was called. *)
Theorem poll_times_out_only_over_budget
    (I T : Z) (server : nat → reply) (fuel : nat) (cid : string)
    (w : World) (m : string) (w' : World) :
  poll_container_ready I T server fuel cid w = (Raise (TimeoutError m), w') →
  T < clock w' - clock w
  ∧ m = "Container " ++ cid ++ " not ready within timeout.".
Proof.
  rewrite poll_container_ready_unfold. intros E.
  by destruct (poll_loop_outcome I T server fuel cid (clock w) w _ _ E).
Qed.


(** X6.  With a positive interval the poll always ends: whatever the
    platform answers, [POLL_TIMEOUT / POLL_INTERVAL + 2] turns of the loop
    are enough for it to return or raise. *)
Theorem poll_ends_when_interval_positive
    (I T : Z) (server : nat → reply) (fuel : nat) (cid : string) (w : World) :
  0 < I →
  (Z.to_nat (T / I) + 2 ≤ fuel)%nat →
  (poll_container_ready I T server fuel cid w).1 ≠ OutOfFuel.
Proof.
  intros HI Hfuel. rewrite poll_container_ready_unfold.
  apply (poll_loop_ends I T server (Z.to_nat (T / I) + 1)); [lia|lia|].
  pose proof (Z.mul_succ_div_gt T I HI) as Hdiv.
  destruct (Z.le_gt_cases 0 (T / I)) as [Hq|Hq].
  - rewrite Nat2Z.inj_add, Z2Nat.id by done. lia.
  - assert (Z.to_nat (T / I) = 0%nat) as -> by lia. nia.
Qed.

(* ===================================================================== *)
(** ** What the lifecycle of a row sends *)
(* ===================================================================== *)

Section LifecycleShape.

Variable ACCESS_TOKEN : string.
Variable POLL_INTERVAL : Z.
Variable POLL_TIMEOUT : Z.
Variable server : nat → reply.

Local Abbreviation publish_row' :=
  (publish_row ACCESS_TOKEN POLL_INTERVAL POLL_TIMEOUT server).

Lemma poll_events_count (p : event → bool) (cid : string) (evs : list event) :
  p (EvStatus cid) = false → p (EvSleep POLL_INTERVAL) = false →
  poll_events POLL_INTERVAL cid evs → count p evs = 0%nat.
Proof.
  intros H1 H2 H. apply count_none. eapply Forall_impl; [exact H|].
  by intros e [-> | ->].
Qed.

Lemma publish_row_no_id (fuel : nat) (r : row) (w : World)
    (data : gmap string string) :
  body (server (requests_sent w)) = Some data → data !! "id" = None →
  publish_row' fuel r w
  = (Raise (KeyError "id"),
     answered server (EvCreate (row_payload ACCESS_TOKEN r))
       (logged (EvPrint ("[INFO] Creating container for due reel: "
                         ++ PyStr.strip (row_get r "video_url" ""))) w)).
Proof.
  intros E Hid.
  unfold publish_row, create_reel_container, bind, print, emit, http.
  cbn [requests_sent logged]. by rewrite E, Hid.
Qed.

(** The trace of [publish_row], whatever its outcome: one create request;
    one publish request at the most, and then for a container whose
    status was seen FINISHED; the row returned only after that request
    was answered. *)
Lemma publish_row_shape (fuel : nat) (r : row) (w : World)
    (res : result row) (w' : World) :
  publish_row' fuel r w = (res, w') →
  ∃ evs,
    trace w' = (trace w ++ evs)%list
    ∧ count is_create evs = 1%nat
    ∧ (count is_publish evs ≤ 1)%nat
    ∧ (count is_publish evs = 1%nat →
       ∃ n, (requests_sent w < n)%nat ∧ (S n < requests_sent w')%nat
            ∧ answers_status (server n) (Some "FINISHED"))
    ∧ (∀ r', res = Ret r' →
         r' = <["posted" := "true"]> r ∧ count is_publish evs = 1%nat
         ∧ ∃ data, body (server (Nat.pred (requests_sent w'))) = Some data).
Proof.
  destruct (body (server (requests_sent w))) as [data|] eqn:Eb.
  2:{ rewrite (publish_row_create_fails _ _ _ _ _ _ _ Eb).
      intros [= <- <-]. eexists [_; _]. cbn [trace answered logged].
      rewrite <- app_assoc. split; [done|].
      rewrite !count_cons, !count_nil. cbn.
      split; [done|]. split; [lia|]. by split. }
  destruct (data !! "id") as [cid|] eqn:Eid.
  2:{ rewrite (publish_row_no_id _ _ _ _ Eb Eid).
      intros [= <- <-]. eexists [_; _]. cbn [trace answered logged].
      rewrite <- app_assoc. split; [done|].
      rewrite !count_cons, !count_nil. cbn.
      split; [done|]. split; [lia|]. by split. }
  rewrite (publish_row_created _ _ _ _ _ _ cid _
             (ex_intro _ data (conj Eb Eid))).
  set (w1 := created ACCESS_TOKEN server r cid w).
  unfold after_create, bind.
  destruct (poll_loop_trace POLL_INTERVAL POLL_TIMEOUT server fuel cid
              (clock w1) w1) as (evp & Htp & Hevp & _).
  rewrite <- poll_container_ready_unfold in Htp.
  destruct (poll_container_ready POLL_INTERVAL POLL_TIMEOUT server fuel cid w1)
    as [[b| |] wp] eqn:Ep; cbn [snd] in Htp.
  - apply poll_returns_finished in Ep as (_ & n & Hn & Hle & Hfin).
    unfold print, emit, publish_container, bind, http.
    cbn [requests_sent logged].
    destruct (body (server (requests_sent wp))) as [dp|] eqn:Ebp.
    + intros [= <- <-].
      eexists (_ :: _ :: _ :: _ :: evp ++ [_; _; _])%list.
      cbn [trace answered logged]. rewrite Htp. unfold w1.
      rewrite trace_created. split.
      { rewrite <- !app_assoc. cbn [app]. reflexivity. }
      rewrite !count_cons, !count_app, !count_cons, !count_nil.
      rewrite (poll_events_count is_create cid evp eq_refl eq_refl Hevp).
      rewrite (poll_events_count is_publish cid evp eq_refl eq_refl Hevp).
      cbn [is_create is_publish requests_sent]. split; [done|].
      split; [lia|]. split.
      * intros _. exists n. cbn [requests_sent logged answered].
        rewrite Hn. unfold w1 in Hle.
        rewrite requests_sent_created in Hle. repeat split; [lia|lia|done].
      * intros r' [= <-]. split; [done|]. split; [done|].
        exists dp. by cbn [requests_sent logged answered Nat.pred].
    + intros [= <- <-].
      eexists (_ :: _ :: _ :: _ :: evp ++ [_; _])%list.
      cbn [trace answered logged]. rewrite Htp. unfold w1.
      rewrite trace_created. split.
      { rewrite <- !app_assoc. cbn [app]. reflexivity. }
      rewrite !count_cons, !count_app, !count_cons, !count_nil.
      rewrite (poll_events_count is_create cid evp eq_refl eq_refl Hevp).
      rewrite (poll_events_count is_publish cid evp eq_refl eq_refl Hevp).
      cbn [is_create is_publish requests_sent]. split; [done|].
      split; [lia|]. split; [|done].
      intros _. exists n. cbn [requests_sent logged answered].
        rewrite Hn. unfold w1 in Hle.
      rewrite requests_sent_created in Hle. repeat split; [lia|lia|done].
  - intros [= <- <-].
    eexists (_ :: _ :: _ :: _ :: evp)%list. rewrite Htp. unfold w1.
    rewrite trace_created. split.
    { rewrite <- !app_assoc. cbn [app]. reflexivity. }
    rewrite !count_cons.
    rewrite (poll_events_count is_create cid evp eq_refl eq_refl Hevp).
    rewrite (poll_events_count is_publish cid evp eq_refl eq_refl Hevp).
    cbn [is_create is_publish]. split; [done|]. split; [lia|]. by split.
  - intros [= <- <-].
    eexists (_ :: _ :: _ :: _ :: evp)%list. rewrite Htp. unfold w1.
    rewrite trace_created. split.
    { rewrite <- !app_assoc. cbn [app]. reflexivity. }
    rewrite !count_cons.
    rewrite (poll_events_count is_create cid evp eq_refl eq_refl Hevp).
    rewrite (poll_events_count is_publish cid evp eq_refl eq_refl Hevp).
    cbn [is_create is_publish]. split; [done|]. split; [lia|]. by split.
Qed.

End LifecycleShape.

(** X7.  [publish_row] hands back a row only as the row it was given with
    [posted] set to ["true"], and only after it has sent exactly one
    create request and exactly one publish request, the publish request
    for a container whose status was seen FINISHED and itself answered. *)
Theorem row_is_marked_only_after_publish
    (tok : string) (I T : Z) (server : nat → reply) (fuel : nat)
    (r : row) (w : World) (r' : row) (w' : World) :
  publish_row tok I T server fuel r w = (Ret r', w') →
  r' = <["posted" := "true"]> r
  ∧ count is_create (events_since w w') = 1%nat
  ∧ count is_publish (events_since w w') = 1%nat
  ∧ (∃ n, (requests_sent w < n)%nat ∧ (S n < requests_sent w')%nat
          ∧ answers_status (server n) (Some "FINISHED"))
  ∧ ∃ data, body (server (Nat.pred (requests_sent w'))) = Some data.
Proof.
  intros E.
  destruct (publish_row_shape tok I T server fuel r w _ _ E)
    as (evs & Ht & Hc & _ & Hfin & Hret).
  destruct (Hret r' eq_refl) as (-> & Hp & Hlast).
  rewrite (events_since_app _ _ _ Ht).
  split; [done|]. split; [done|]. split; [done|]. split; [by apply Hfin|done].
Qed.

(** X8.  Whatever its outcome, [publish_row] sends one create request and
    one publish request at the most, and it sends the publish request only
    after a status query was answered FINISHED. *)
Theorem publish_is_requested_once_after_finished
    (tok : string) (I T : Z) (server : nat → reply) (fuel : nat)
    (r : row) (w : World) :
  count is_create
    (events_since w (publish_row tok I T server fuel r w).2) = 1%nat
  ∧ (count is_publish
       (events_since w (publish_row tok I T server fuel r w).2) ≤ 1)%nat
  ∧ (count is_publish
       (events_since w (publish_row tok I T server fuel r w).2) = 1%nat →
     ∃ n, (requests_sent w < n)%nat
          ∧ (S n < requests_sent (publish_row tok I T server fuel r w).2)%nat
          ∧ answers_status (server n) (Some "FINISHED")).
Proof.
  destruct (publish_row tok I T server fuel r w) as [res w'] eqn:E.
  destruct (publish_row_shape tok I T server fuel r w _ _ E)
    as (evs & Ht & Hc & Hp & Hfin & _).
  cbn [snd]. rewrite (events_since_app _ _ _ Ht).
  split; [done|]. split; [done|exact Hfin].
Qed.

(** X9.  When the create request fails, or is answered without an [id],
    [publish_row] raises (the request exception, or [KeyError] for the
    missing field) with nothing done but the line printed and the create
    request sent: no status query, no publish request. *)
Theorem create_failure_stops_the_lifecycle
    (tok : string) (I T : Z) (server : nat → reply) (fuel : nat)
    (r : row) (w : World) :
  body (server (requests_sent w)) = None
  ∨ (∃ data, body (server (requests_sent w)) = Some data
             ∧ data !! "id" = None) →
  ∃ e w', publish_row tok I T server fuel r w = (Raise e, w')
          ∧ (body (server (requests_sent w)) = None → e = RequestException)
          ∧ (body (server (requests_sent w)) ≠ None → e = KeyError "id")
          ∧ events_since w w'
            = [EvPrint ("[INFO] Creating container for due reel: "
                        ++ PyStr.strip (row_get r "video_url" ""));
               EvCreate (row_payload tok r)].
Proof.
  intros [Eb|(data & Eb & Eid)].
  - eexists _, _. split; [by apply publish_row_create_fails|].
    split; [done|]. split; [by rewrite Eb|].
    apply events_since_app. cbn. by rewrite <- app_assoc.
  - eexists _, _. split; [by apply (publish_row_no_id _ _ _ _ _ _ _ data)|].
    split; [by rewrite Eb|]. split; [done|].
    apply events_since_app. cbn. by rewrite <- app_assoc.
Qed.

(** X10.  A publish response without an [id] is no error: the media id is
    the empty text, the last line printed ends after the colon, and the
    row comes back marked as posted. *)
Theorem publish_without_id_is_success
    (tok : string) (I T : Z) (server : nat → reply) (fuel : nat)
    (cid : string) (r : row) (w : World) (data : gmap string string) :
  answers_id (server (requests_sent w)) cid →
  answers_status (server (S (requests_sent w))) (Some "FINISHED") →
  body (server (S (S (requests_sent w)))) = Some data →
  data !! "id" = None →
  ∃ w', publish_row tok I T server (S fuel) r w
        = (Ret (<["posted" := "true"]> r), w')
        ∧ last (trace w') = Some (EvPrint "[OK] Published IG Media ID: ").
Proof.
  intros Hid Hfin Eb Enone.
  rewrite (publish_row_created _ _ _ _ _ _ cid _ Hid).
  set (w1 := created tok server r cid w).
  unfold after_create, bind. rewrite poll_container_ready_unfold.
  rewrite (poll_loop_finished I T server fuel cid (clock w1) w1 Hfin).
  unfold print, emit, publish_container, bind, http. subst w1.
  cbn [requests_sent logged answered created]. rewrite Eb, Enone.
  eexists. split; [reflexivity|]. cbn [trace logged]. by rewrite last_snoc.
Qed.

(* ===================================================================== *)
(** ** More about a run *)
(* ===================================================================== *)

(** X11.  A run that comes to its end keeps the rows in their number and
    order and changes no cell but [posted]: a row is left as it was, or is
    a due row with [posted] set to ["true"] and every other cell equal. *)
Theorem run_changes_only_posted
    (tok : string) (I T : Z) (loc : option (datetime → option datetime))
    (server : nat → reply) (fuel : nat) (now_ist : datetime)
    (rows : list row) (w : World) (rows' : list row) (changed : bool)
    (w' : World) :
  main_loop tok I T loc server fuel now_ist rows w
  = (Ret (rows', changed), w') →
  length rows' = length rows
  ∧ ∀ i r r', rows !! i = Some r → rows' !! i = Some r' →
      (∀ k, k ≠ "posted" → r' !! k = r !! k)
      ∧ (r' = r
         ∨ (r' !! "posted" = Some "true"
            ∧ due_gate loc now_ist r = IsDue)).
Proof.
  intros E. split; [by eapply main_loop_length|].
  destruct (main_loop_steps _ _ _ _ _ _ _ _ _ _ _ _ E) as [HF _].
  intros i r r' Hr Hr'.
  destruct (Forall2_lookup_lr _ _ _ _ _ _ HF Hr Hr')
    as (c & [(_ & -> & _)|(Hdue & -> & _)]).
  - split; [done|by left].
  - split.
    + intros k Hk. by rewrite lookup_insert_ne.
    + right. by rewrite lookup_insert_eq.
Qed.


Section RunAccounts.

Variable ACCESS_TOKEN : string.
Variable POLL_INTERVAL : Z.
Variable POLL_TIMEOUT : Z.
Variable IST_localize : option (datetime → option datetime).
Variable server : nat → reply.

Local Abbreviation main_loop' :=
  (main_loop ACCESS_TOKEN POLL_INTERVAL POLL_TIMEOUT IST_localize server).

Lemma due_rows_cons_due now_ist (r : row) (rows : list row) :
  due_gate IST_localize now_ist r = IsDue →
  due_rows IST_localize now_ist (r :: rows)
  = r :: due_rows IST_localize now_ist rows.
Proof.
  intros E. unfold due_rows. rewrite filter_cons, decide_True; [done|].
  by rewrite E.
Qed.

Lemma due_rows_cons_not_due now_ist (r : row) (rows : list row) :
  due_gate IST_localize now_ist r ≠ IsDue →
  due_rows IST_localize now_ist (r :: rows)
  = due_rows IST_localize now_ist rows.
Proof.
  intros E. unfold due_rows. rewrite filter_cons, decide_False; [done|].
  by destruct (due_gate IST_localize now_ist r).
Qed.

(** A loop that came to its end sent one create and one publish request
    for each due row. *)
Lemma main_loop_accounts fuel now_ist (rows : list row) :
  ∀ w rows' changed w',
  main_loop' fuel now_ist rows w = (Ret (rows', changed), w') →
  ∃ evs, trace w' = (trace w ++ evs)%list
         ∧ count is_create evs
           = length (due_rows IST_localize now_ist rows)
         ∧ count is_publish evs
           = length (due_rows IST_localize now_ist rows)
         ∧ (changed = true ↔ due_rows IST_localize now_ist rows ≠ []).
Proof.
  induction rows as [|r rows IH]; intros w rows' changed w'.
  - cbn. intros [= <- <- <-]. exists []. rewrite app_nil_r.
    repeat split; done.
  - rewrite main_loop_cons.
    destruct (process_row ACCESS_TOKEN POLL_INTERVAL POLL_TIMEOUT IST_localize
                server fuel now_ist r w) as [[[r1 c]| |] w1] eqn:Er; [|done..].
    destruct (main_loop' fuel now_ist rows w1) as [[[rest' ch]| |] w2] eqn:El;
      [|done..].
    intros [= <- <- <-].
    destruct (IH _ _ _ _ El) as (evs & Ht & Hcr & Hpu & Hch).
    destruct (due_gate IST_localize now_ist r) as [[line|]|] eqn:Eg.
    + rewrite (process_row_warn _ _ _ _ _ _ _ _ _ _ Eg) in Er.
      injection Er as <- <- <-.
      rewrite due_rows_cons_not_due by (by rewrite Eg).
      exists (EvPrint line :: evs). rewrite Ht. cbn [trace logged].
      rewrite <- app_assoc, !count_cons. cbn. by rewrite Hcr, Hpu.
    + rewrite (process_row_skip _ _ _ _ _ _ _ _ _ Eg) in Er.
      injection Er as <- <- <-.
      rewrite due_rows_cons_not_due by (by rewrite Eg).
      exists evs. cbn. by rewrite Hcr, Hpu.
    + rewrite (process_row_due _ _ _ _ _ _ _ _ _ Eg) in Er.
      destruct (publish_row ACCESS_TOKEN POLL_INTERVAL POLL_TIMEOUT server
                  fuel r w) as [[r2| |] w1'] eqn:Ep; [|done..].
      injection Er as <- <- <-.
      destruct (publish_row_shape _ _ _ _ _ _ _ _ _ Ep)
        as (ev0 & Ht0 & Hc0 & _ & _ & Hret).
      destruct (Hret r2 eq_refl) as (_ & Hp0 & _).
      rewrite (due_rows_cons_due _ _ _ Eg).
      exists (ev0 ++ evs)%list. rewrite Ht, Ht0, !count_app, Hc0, Hp0, Hcr, Hpu.
      rewrite <- app_assoc. cbn. repeat split; done.
Qed.



End RunAccounts.

(** X13.  In a run that comes to its end, every due row gets exactly one
    create request and one publish request and no other row gets any:
    the numbers of both are the number of due rows, and [changed] is set
    exactly when there is a due row. *)
Theorem completed_run_publishes_each_due_row_once
    (tok : string) (I T : Z) (loc : option (datetime → option datetime))
    (server : nat → reply) (fuel : nat) (now_ist : datetime)
    (rows : list row) (w : World) (rows' : list row) (changed : bool)
    (w' : World) :
  main_loop tok I T loc server fuel now_ist rows w
  = (Ret (rows', changed), w') →
  count is_create (events_since w w') = length (due_rows loc now_ist rows)
  ∧ count is_publish (events_since w w') = length (due_rows loc now_ist rows)
  ∧ (changed = true ↔ due_rows loc now_ist rows ≠ []).
Proof.
  intros E.
  destruct (main_loop_accounts _ _ _ _ _ _ _ _ _ _ _ _ E)
    as (evs & Ht & H1 & H2 & H3).
  by rewrite (events_since_app _ _ _ Ht).
Qed.


(* ===================================================================== *)
(** ** Time *)
(* ===================================================================== *)

Section Order.

Lemma lex_not_lt (x y : Z) (c : comparison) :
  lex (x ?= y) c ≠ Lt ↔ y < x ∨ (x = y ∧ c ≠ Lt).
Proof.
  destruct (Z.compare_spec x y) as [H|H|H]; cbn [lex]; split.
  - intros Hc. by right.
  - intros [?|[_ ?]]; [lia|done].
  - done.
  - intros [?|[? _]]; lia.
  - intros _. by left.
  - done.
Qed.

Lemma compare_not_lt (x y : Z) : (x ?= y) ≠ Lt ↔ y ≤ x.
Proof.
  destruct (Z.compare_spec x y) as [H|H|H]; split; try done; lia.
Qed.

(** [a] is not before [b], field by field. *)
Lemma dt_lt_false (a b : datetime) :
  dt_lt a b = false ↔
  year b < year a ∨ (year a = year b ∧
  (month b < month a ∨ (month a = month b ∧
  (day b < day a ∨ (day a = day b ∧
  (hour b < hour a ∨ (hour a = hour b ∧
  (minute b < minute a ∨ (minute a = minute b ∧
  (second b < second a ∨ (second a = second b ∧
   microsecond b ≤ microsecond a))))))))))).
Proof.
  rewrite <- compare_not_lt, <- !lex_not_lt. unfold dt_lt.
  fold (dt_compare a b). by destruct (dt_compare a b).
Qed.

End Order.

(** X15.  A due row never expires: a row that is due at some time is due
    at every time that is not before it. *)
Theorem due_row_stays_due
    (loc : option (datetime → option datetime)) (now1 now2 : datetime)
    (r : row) :
  dt_lt now2 now1 = false →
  due_gate loc (replace_second0 now1) r = IsDue →
  due_gate loc (replace_second0 now2) r = IsDue.
Proof.
  intros Hle. unfold due_gate.
  destruct (parse_bool _); [done|].
  destruct (negb _); [done|].
  destruct (parse_schedule _ _) as [t|]; [|done].
  destruct (dt_lt (replace_second0 now1) t) eqn:E1; [done|]. intros _.
  assert (E2 : dt_lt (replace_second0 now2) t = false); [|by rewrite E2].
  apply dt_lt_false in Hle, E1. apply dt_lt_false.
  cbn [replace_second0 year month day hour minute second microsecond] in *.
  lia.
Qed.

(** X16.  A row that is not posted and whose schedule, stripped, is not
    empty and is refused by [strptime] costs one warning line and nothing
    else, whatever [IST.localize] is: no request, the row unchanged,
    [changed] not set. *)
Theorem unparsable_schedule_is_skipped_with_warning
    (tok : string) (I T : Z) (loc : option (datetime → option datetime))
    (server : nat → reply) (fuel : nat) (now_ist : datetime)
    (r : row) (w : World) :
  parse_bool (row_get r "posted" "false") = false →
  PyStr.strip (row_get r "scheduled_time_ist" "") ≠ "" →
  Strptime.strptime (PyStr.strip (row_get r "scheduled_time_ist" "")) = None →
  process_row tok I T loc server fuel now_ist r w
  = (Ret (r, false),
     logged (EvPrint ("[WARN] Bad time format: "
                      ++ PyStr.strip (row_get r "scheduled_time_ist" ""))) w).
Proof.
  intros Hposted Hne Hparse. apply process_row_warn.
  unfold due_gate. rewrite Hposted, parse_schedule_is_strptime, Hparse.
  by destruct (PyStr.strip (row_get r "scheduled_time_ist" "")).
Qed.

(* ===================================================================== *)
(** ** The ranges of what [strptime] reads *)
(* ===================================================================== *)

Module StrptimeBounds.
Import PyStr Strptime StrptimeFacts.

Lemma in_range_val (lo hi c : ascii) :
  in_range lo hi c = true →
  code lo - 48 ≤ digit_val c ≤ code hi - 48.
Proof.
  unfold in_range, digit_val.
  intros [H1%Z.leb_le H2%Z.leb_le]%andb_true_iff. lia.
Qed.

(** Replace the code of each literal character by its number. *)
Local Ltac literal_codes H :=
  repeat match type of H with
         | context [code (Ascii ?a ?b ?c ?d ?e ?f ?g ?h)] =>
             let v := eval vm_compute in (code (Ascii a b c d e f g h)) in
             change (code (Ascii a b c d e f g h)) with v in H
         end.

Lemma isdigit_val (c : ascii) : isdigit c = true → 0 ≤ digit_val c ≤ 9.
Proof. intros H%in_range_val. literal_codes H. lia. Qed.

Section Ranges.
Context {R : Type}.
Implicit Types (r : R) (s : string) (k : Z → string → option R).

Lemma re_Y_range k s r :
  re_Y k s = Some r → ∃ v t, 0 ≤ v ≤ 9999 ∧ k v t = Some r.
Proof.
  unfold re_Y.
  intros (a & t1 & -> & Ha%isdigit_val & (b & t2 & -> & Hb%isdigit_val
    & (c & t3 & -> & Hc%isdigit_val
    & (d & t4 & -> & Hd%isdigit_val & H)%chr_inv)%chr_inv)%chr_inv)%chr_inv.
  eexists _, t4. split; [|exact H]. lia.
Qed.

(** A literal, then a character of a range: [lo + v], [v] in the range. *)
Lemma lit_range_inv (l lo hi : ascii) (base : Z) k s r :
  lit l (chr (in_range lo hi) (λ c, k (base + digit_val c))) s = Some r →
  ∃ v t, base + (code lo - 48) ≤ v ≤ base + (code hi - 48) ∧ k v t = Some r.
Proof.
  unfold lit.
  intros (a & t1 & -> & _ & (c & t2 & -> & Hc%in_range_val & H)%chr_inv)%chr_inv.
  eexists _, t2. split; [|exact H]. lia.
Qed.

Lemma lit_range_inv0 (l lo hi : ascii) k s r :
  lit l (chr (in_range lo hi) (λ c, k (digit_val c))) s = Some r →
  ∃ v t, code lo - 48 ≤ v ≤ code hi - 48 ∧ k v t = Some r.
Proof.
  unfold lit.
  intros (a & t1 & -> & _ & (c & t2 & -> & Hc%in_range_val & H)%chr_inv)%chr_inv.
  eexists _, t2. split; [|exact H]. lia.
Qed.

Lemma range_digit_inv (lo hi : ascii) k s r :
  chr (in_range lo hi) (λ a, chr isdigit (λ c,
    k (10 * digit_val a + digit_val c))) s = Some r →
  ∃ v t, 10 * (code lo - 48) ≤ v ≤ 10 * (code hi - 48) + 9 ∧ k v t = Some r.
Proof.
  intros (a & t1 & -> & Ha%in_range_val
          & (c & t2 & -> & Hc%isdigit_val & H)%chr_inv)%chr_inv.
  eexists _, t2. split; [|exact H]. lia.
Qed.

Lemma range_inv (lo hi : ascii) k s r :
  chr (in_range lo hi) (λ c, k (digit_val c)) s = Some r →
  ∃ v t, code lo - 48 ≤ v ≤ code hi - 48 ∧ k v t = Some r.
Proof.
  intros (c & t & -> & Hc%in_range_val & H)%chr_inv.
  eexists _, t. split; [|exact H]. lia.
Qed.

Lemma re_m_range k s r :
  re_m k s = Some r → ∃ v t, 1 ≤ v ≤ 12 ∧ k v t = Some r.
Proof.
  unfold re_m.
  intros [H|[H|H]%orelse_inv]%orelse_inv.
  - apply lit_range_inv in H as (v & t & Hv & H). literal_codes Hv.
    exists v, t. split; [lia|done].
  - apply lit_range_inv0 in H as (v & t & Hv & H). literal_codes Hv.
    exists v, t. split; [lia|done].
  - apply range_inv in H as (v & t & Hv & H). literal_codes Hv.
    exists v, t. split; [lia|done].
Qed.

Lemma re_d_range k s r :
  re_d k s = Some r → ∃ v t, 1 ≤ v ≤ 31 ∧ k v t = Some r.
Proof.
  unfold re_d.
  intros [H|[H|[H|[H|H]%orelse_inv]%orelse_inv]%orelse_inv]%orelse_inv.
  - apply lit_range_inv in H as (v & t & Hv & H). literal_codes Hv.
    exists v, t. split; [lia|done].
  - apply range_digit_inv in H as (v & t & Hv & H). literal_codes Hv.
    exists v, t. split; [lia|done].
  - apply lit_range_inv0 in H as (v & t & Hv & H). literal_codes Hv.
    exists v, t. split; [lia|done].
  - apply range_inv in H as (v & t & Hv & H). literal_codes Hv.
    exists v, t. split; [lia|done].
  - apply lit_range_inv0 in H as (v & t & Hv & H). literal_codes Hv.
    exists v, t. split; [lia|done].
Qed.

Lemma re_H_range k s r :
  re_H k s = Some r → ∃ v t, 0 ≤ v ≤ 23 ∧ k v t = Some r.
Proof.
  unfold re_H.
  intros [H|[H|H]%orelse_inv]%orelse_inv.
  - apply lit_range_inv in H as (v & t & Hv & H). literal_codes Hv.
    exists v, t. split; [lia|done].
  - apply range_digit_inv in H as (v & t & Hv & H). literal_codes Hv.
    exists v, t. split; [lia|done].
  - apply (range_inv "0" "9") in H as (v & t & Hv & H). literal_codes Hv.
    exists v, t. split; [lia|done].
Qed.

Lemma re_M_range k s r :
  re_M k s = Some r → ∃ v t, 0 ≤ v ≤ 59 ∧ k v t = Some r.
Proof.
  unfold re_M.
  intros [H|H]%orelse_inv.
  - apply range_digit_inv in H as (v & t & Hv & H). literal_codes Hv.
    exists v, t. split; [lia|done].
  - apply (range_inv "0" "9") in H as (v & t & Hv & H). literal_codes Hv.
    exists v, t. split; [lia|done].
Qed.

End Ranges.

Lemma match_format_ranges s y m d h mi rest :
  match_format s = Some (y, m, d, h, mi, rest) →
  0 ≤ y ≤ 9999 ∧ 1 ≤ m ≤ 12 ∧ 1 ≤ d ≤ 31 ∧ 0 ≤ h ≤ 23 ∧ 0 ≤ mi ≤ 59.
Proof.
  unfold match_format.
  intros (y' & s1 & Hy & H)%re_Y_range.
  apply lit_inv in H as (s2 & _ & H).
  apply re_m_range in H as (m' & s3 & Hm & H).
  apply lit_inv in H as (s4 & _ & H).
  apply re_d_range in H as (d' & s5 & Hd & H).
  apply spaces_plus_inv in H as (s6 & _ & H).
  apply re_H_range in H as (h' & s7 & Hh & H).
  apply lit_inv in H as (s8 & _ & H).
  apply re_M_range in H as (mi' & s9 & Hmi & H).
  by injection H as -> -> -> -> -> ->.
Qed.

End StrptimeBounds.

(** X17.  Whatever [IST.localize] is, a schedule that parses is a minute
    of the calendar: year 1 to 9999, month 1 to 12, a day that exists in
    that month of that year (the 29th of February in leap years only),
    hour 0 to 23, minute 0 to 59, neither seconds nor microseconds. *)
Theorem parsed_schedule_is_a_calendar_minute
    (loc : option (datetime → option datetime)) (s : string) (t : datetime) :
  parse_schedule loc s = Some t →
  1 ≤ year t ≤ 9999 ∧ 1 ≤ month t ≤ 12
  ∧ 1 ≤ day t ≤ days_in_month (year t) (month t)
  ∧ 28 ≤ days_in_month (year t) (month t) ≤ 31
  ∧ 0 ≤ hour t ≤ 23 ∧ 0 ≤ minute t ≤ 59
  ∧ second t = 0 ∧ microsecond t = 0.
Proof.
  rewrite parse_schedule_is_strptime. unfold Strptime.strptime.
  destruct (Strptime.match_format s) as [[[[[[y m] d] h] mi] rest]|] eqn:E;
    [|done].
  apply StrptimeBounds.match_format_ranges in E as (Hy & Hm & Hd & Hh & Hmi).
  destruct rest; [|done].
  destruct (valid_date y m d) eqn:Ev; [|done]. intros [= <-].
  cbn [year month day hour minute second microsecond].
  unfold valid_date in Ev. rewrite !andb_true_iff, !Z.leb_le in Ev.
  assert (28 ≤ days_in_month y m ≤ 31).
  { unfold days_in_month.
    destruct (m =? 2); [destruct (is_leap y); lia|].
    destruct (_ || _); lia. }
  repeat split; lia.
Qed.

(* ===================================================================== *)
(** ** The further statements at sample inputs *)
(* ===================================================================== *)

Section MoreSamples.

Import Demo DemoMore.

Lemma parse_bool_ignores_padding_and_case_witness :
  parse_bool ("  " ++ "YeS" ++ " ") = parse_bool "yes".
Proof.
  apply (parse_bool_ignores_padding_and_case "  " "YeS" " " "yes");
    reflexivity.
Defined.

Lemma row_payload_fields_witness :
  row_payload "tok" row_a !! "cover_url" = None.
Proof.
  destruct (row_payload_fields "tok" row_a)
    as (_ & _ & _ & _ & _ & _ & _ & _ & H & _).
  apply H. reflexivity.
Defined.

Lemma poll_returns_only_on_finished_witness :
  ∃ n, requests_sent
         (poll_container_ready 8 180 server_odd 5 "c1"
            (created "tok" server_odd row_a "c1" (world [row_a]))).2 = S n
       ∧ answers_status (server_odd n) (Some "FINISHED").
Proof.
  destruct (poll_returns_only_on_finished 8 180 server_odd 5 "c1"
              (created "tok" server_odd row_a "c1" (world [row_a])) true
              (poll_container_ready 8 180 server_odd 5 "c1"
                 (created "tok" server_odd row_a "c1" (world [row_a]))).2)
    as (_ & n & Hn & _ & Hfin).
  - vm_compute. reflexivity.
  - exists n. split; [exact Hn | exact Hfin].
Defined.

Lemma poll_times_out_only_over_budget_witness :
  20 < clock (poll_container_ready 8 20 server_stuck 10 "c1" (world [])).2
       - clock (world []).
Proof.
  refine (proj1 (poll_times_out_only_over_budget 8 20 server_stuck 10 "c1"
                   (world []) "Container c1 not ready within timeout."
                   (poll_container_ready 8 20 server_stuck 10 "c1"
                      (world [])).2 _)).
  vm_compute. reflexivity.
Defined.


Lemma poll_ends_when_interval_positive_witness :
  (poll_container_ready 8 180 server_stuck 24 "c1" (world [])).1 ≠ OutOfFuel.
Proof.
  apply (poll_ends_when_interval_positive 8 180 server_stuck 24 "c1"
           (world [])).
  - lia.
  - vm_compute. lia.
Defined.

Lemma row_is_marked_only_after_publish_witness :
  count is_publish
    (events_since (world [row_a])
       (publish_row "tok" 8 180 server_slow 5 row_a (world [row_a])).2)
  = 1%nat.
Proof.
  destruct (row_is_marked_only_after_publish "tok" 8 180 server_slow 5 row_a
              (world [row_a]) (<["posted" := "true"]> row_a)
              (publish_row "tok" 8 180 server_slow 5 row_a (world [row_a])).2)
    as (_ & _ & H & _).
  - vm_compute. reflexivity.
  - exact H.
Defined.

Lemma create_failure_stops_the_lifecycle_witness :
  ∃ e w', publish_row "tok" 8 180 server_no_container_id 5 row_a
            (world [row_a]) = (Raise e, w')
          ∧ e = KeyError "id".
Proof.
  destruct (create_failure_stops_the_lifecycle "tok" 8 180
              server_no_container_id 5 row_a (world [row_a]))
    as (e & w' & H & _ & He & _).
  - right. eexists. split; reflexivity.
  - exists e, w'. split; [exact H|]. apply He. discriminate.
Defined.

Lemma publish_without_id_is_success_witness :
  ∃ w', publish_row "tok" 8 180 server_no_media_id 1 row_a (world [row_a])
        = (Ret (<["posted" := "true"]> row_a), w')
        ∧ last (trace w') = Some (EvPrint "[OK] Published IG Media ID: ").
Proof.
  apply (publish_without_id_is_success "tok" 8 180 server_no_media_id 0 "c1"
           row_a (world [row_a]) {[ "status" := "ok" ]}).
  - eexists. split; reflexivity.
  - eexists. split; reflexivity.
  - reflexivity.
  - reflexivity.
Defined.

Local Abbreviation three_rows := (world [row_a; row_posted; row_later]).

Lemma run_changes_only_posted_witness :
  (<["posted" := "true"]> row_a) !! "video_url" = row_a !! "video_url".
Proof.
  destruct (run_changes_only_posted "tok" 8 180 None server_ready 5
              (replace_second0 noon) [row_a; row_posted; row_later]
              three_rows
              [<["posted" := "true"]> row_a; row_posted; row_later] true
              (main_loop "tok" 8 180 None server_ready 5
                 (replace_second0 noon) [row_a; row_posted; row_later]
                 three_rows).2) as [_ H].
  - vm_compute. reflexivity.
  - apply (proj1 (H 0%nat row_a (<["posted" := "true"]> row_a)
                    eq_refl eq_refl)). discriminate.
Defined.


Lemma completed_run_publishes_each_due_row_once_witness :
  count is_publish
    (events_since three_rows
       (main_loop "tok" 8 180 None server_ready 5 (replace_second0 noon)
          [row_a; row_posted; row_later] three_rows).2)
  = length (due_rows None (replace_second0 noon)
              [row_a; row_posted; row_later]).
Proof.
  refine (proj1 (proj2 (completed_run_publishes_each_due_row_once "tok" 8 180
            None server_ready 5 (replace_second0 noon)
            [row_a; row_posted; row_later] three_rows
            [<["posted" := "true"]> row_a; row_posted; row_later] true
            (main_loop "tok" 8 180 None server_ready 5 (replace_second0 noon)
               [row_a; row_posted; row_later] three_rows).2 _))).
  vm_compute. reflexivity.
Defined.


Lemma due_row_stays_due_witness :
  due_gate None (replace_second0 one_pm) row_a = IsDue.
Proof.
  apply (due_row_stays_due None noon one_pm row_a).
  - vm_compute. reflexivity.
  - vm_compute. reflexivity.
Defined.

Lemma unparsable_schedule_is_skipped_with_warning_witness :
  process_row "tok" 8 180 None server_ready 5 (replace_second0 noon)
    row_bad_time (world [row_bad_time])
  = (Ret (row_bad_time, false),
     logged (EvPrint ("[WARN] Bad time format: "
                      ++ PyStr.strip (row_get row_bad_time
                                        "scheduled_time_ist" "")))
       (world [row_bad_time])).
Proof.
  apply (unparsable_schedule_is_skipped_with_warning "tok" 8 180 None
           server_ready 5 (replace_second0 noon) row_bad_time
           (world [row_bad_time])).
  - vm_compute. reflexivity.
  - vm_compute. discriminate.
  - vm_compute. reflexivity.
Defined.

Lemma parsed_schedule_is_a_calendar_minute_witness :
  1 ≤ day (mkDatetime 2024 2 29 23 59 0 0)
    ≤ days_in_month 2024 2.
Proof.
  destruct (parsed_schedule_is_a_calendar_minute None "2024-02-29 23:59"
              (mkDatetime 2024 2 29 23 59 0 0)) as (_ & _ & H & _).
  - vm_compute. reflexivity.
  - exact H.
Defined.

End MoreSamples.
